(** * netatmo_data_sampler: a shallow embedding of [data_sampler.py]

    The script samples one day of measurements per device and metric from
    the Netatmo cloud and stores each series as a CSV file.  The embedding
    follows the four procedures of the script:

    - [_init_wsd]                      (session initializer),
    - [_data_sampler_device]           (device sampler),
    - [data_sampler_stations]          (station walker),
    - [data_sampler_stations_period]   (period walker).

    Effects (file system, network, clock, standard output, exceptions) are
    threaded through a state-and-exception monad; everything the script
    obtains from [lnetatmo], [pandas], [json] and the operating system is a
    field of the record [World]. *)

From Stdlib Require Import ZArith List String Ascii Lia.
From stdpp Require Import base gmap strings list fin_maps.

Local Open Scope string_scope.

(** ** Python exceptions *)

Inductive exn_class :=
| FileNotFoundError
| TypeError
| IndexError
| ValueError
| OverflowError
| OtherError (name : string).

#[global] Instance exn_class_eq_dec : EqDecision exn_class.
Proof. solve_decision. Defined.

Record exn := Exn { exn_cls : exn_class; exn_msg : string }.

(** ** Calendar arithmetic of Python's [datetime] module

    Only what the script touches: [strptime] and [strftime] with the format
    ["%Y-%m-%d"], [datetime - datetime], [timedelta.days] and
    [datetime - timedelta(days=n)].  The functions follow CPython's
    [Lib/_pydatetime.py]. *)

Module PyDatetime.
Local Open Scope Z_scope.

Record datetime := mkDatetime {
  year : Z; month : Z; day : Z;
  hour : Z; minute : Z; second : Z; microsecond : Z }.

Record timedelta := mkTimedelta { days : Z; seconds : Z; microseconds : Z }.

Definition _MAXORDINAL : Z := 3652059.
Definition _DI400Y : Z := 146097.
Definition _DI100Y : Z := 36524.
Definition _DI4Y : Z := 1461.

Definition _is_leap (y : Z) : bool :=
  (y mod 4 =? 0) && (negb (y mod 100 =? 0) || (y mod 400 =? 0)).

Definition _DAYS_IN_MONTH (m : Z) : Z :=
  match m with
  | 1 => 31 | 2 => 28 | 3 => 31 | 4 => 30 | 5 => 31 | 6 => 30
  | 7 => 31 | 8 => 31 | 9 => 30 | 10 => 31 | 11 => 30 | 12 => 31
  | _ => -1
  end.

Definition _DAYS_BEFORE_MONTH (m : Z) : Z :=
  match m with
  | 1 => 0 | 2 => 31 | 3 => 59 | 4 => 90 | 5 => 120 | 6 => 151
  | 7 => 181 | 8 => 212 | 9 => 243 | 10 => 273 | 11 => 304 | 12 => 334
  | _ => -1
  end.

Definition _days_in_month (y m : Z) : Z :=
  if (m =? 2) && _is_leap y then 29 else _DAYS_IN_MONTH m.

Definition _days_before_year (y : Z) : Z :=
  let y' := y - 1 in y' * 365 + y' / 4 - y' / 100 + y' / 400.

Definition _days_before_month (y m : Z) : Z :=
  _DAYS_BEFORE_MONTH m + (if (2 <? m) && _is_leap y then 1 else 0).

Definition _ymd2ord (y m d : Z) : Z :=
  _days_before_year y + _days_before_month y m + d.

Definition _ord2ymd (n : Z) : Z * Z * Z :=
  let n := n - 1 in
  let n400 := n / _DI400Y in
  let n := n mod _DI400Y in
  let y := n400 * 400 + 1 in
  let n100 := n / _DI100Y in
  let n := n mod _DI100Y in
  let n4 := n / _DI4Y in
  let n := n mod _DI4Y in
  let n1 := n / 365 in
  let n := n mod 365 in
  let y := y + n100 * 100 + n4 * 4 + n1 in
  if (n1 =? 4) || (n100 =? 4) then (y - 1, 12, 31)
  else
    let leapyear := (n1 =? 3) && (negb (n4 =? 24) || (n100 =? 3)) in
    let m := Z.shiftr (n + 50) 5 in
    let preceding :=
      _DAYS_BEFORE_MONTH m + (if (2 <? m) && leapyear then 1 else 0) in
    if n <? preceding then
      let m := m - 1 in
      let preceding :=
        preceding - (_DAYS_IN_MONTH m + (if (m =? 2) && leapyear then 1 else 0)) in
      (y, m, n - preceding + 1)
    else (y, m, n - preceding + 1).

Definition toordinal (d : datetime) : Z := _ymd2ord (year d) (month d) (day d).

(** The [timedelta] constructor normalises its arguments so that
    [0 <= seconds < 86400] and [0 <= microseconds < 1000000]. *)
Definition mk_timedelta (d s us : Z) : timedelta :=
  let s := s + us / 1000000 in
  let us := us mod 1000000 in
  let d := d + s / 86400 in
  let s := s mod 86400 in
  mkTimedelta d s us.

Definition seconds_of_day (d : datetime) : Z :=
  second d + minute d * 60 + hour d * 3600.

(** [datetime.__sub__] for two naive datetimes. *)
Definition datetime_sub (d1 d0 : datetime) : timedelta :=
  mk_timedelta (toordinal d1 - toordinal d0)
               (seconds_of_day d1 - seconds_of_day d0)
               (microsecond d1 - microsecond d0).

(** [datetime - timedelta(days=n)]: [OverflowError] when the result leaves
    the years 1..9999. *)
Definition datetime_sub_days (d : datetime) (n : Z) : exn + datetime :=
  let delta :=
    mk_timedelta (toordinal d - n) (seconds_of_day d) (microsecond d) in
  let h := seconds delta / 3600 in
  let rem := seconds delta mod 3600 in
  if (0 <? days delta) && (days delta <=? _MAXORDINAL) then
    let '(y, m, dd) := _ord2ymd (days delta) in
    inr (mkDatetime y m dd h (rem / 60) (rem mod 60) (microseconds delta))
  else inl (Exn OverflowError "date value out of range").

(** Decimal digits. *)
Definition digit_char (d : Z) : ascii :=
  ascii_of_nat (48 + Z.to_nat (d mod 10)).

Definition pad2 (n : Z) : string :=
  String (digit_char (n / 10)) (String (digit_char n) EmptyString).

Definition pad4 (n : Z) : string :=
  String (digit_char (n / 1000)) (String (digit_char (n / 100)) (pad2 n)).

(** [d.strftime("%Y-%m-%d")]; the year printed on four digits. *)
Definition strftime_ymd (d : datetime) : string :=
  pad4 (year d) +:+ "-" +:+ pad2 (month d) +:+ "-" +:+ pad2 (day d).

Definition digit_val (c : ascii) : option Z :=
  let n := Z.of_nat (nat_of_ascii c) in
  if (48 <=? n) && (n <=? 57) then Some (n - 48) else None.

(** The directive [%m] is the pattern [1[0-2]|0[1-9]|[1-9]]. *)
Definition match_m (cs : list ascii) : option Z :=
  match cs with
  | [c] => match digit_val c with
           | Some v => if 1 <=? v then Some v else None
           | None => None
           end
  | [c1; c2] =>
      match digit_val c1, digit_val c2 with
      | Some 1, Some v => if v <=? 2 then Some (10 + v) else None
      | Some 0, Some v => if 1 <=? v then Some v else None
      | _, _ => None
      end
  | _ => None
  end.

(** The directive [%d] is the pattern [3[0-1]|[1-2]\d|0[1-9]|[1-9]| [1-9]]. *)
Definition match_d (cs : list ascii) : option Z :=
  match cs with
  | [c] => match digit_val c with
           | Some v => if 1 <=? v then Some v else None
           | None => None
           end
  | [c1; c2] =>
      match digit_val c1, digit_val c2 with
      | Some 3, Some v => if v <=? 1 then Some (30 + v) else None
      | Some 1, Some v => Some (10 + v)
      | Some 2, Some v => Some (20 + v)
      | Some 0, Some v => if 1 <=? v then Some v else None
      | None, Some v =>
          if Ascii.eqb c1 " " && (1 <=? v) then Some v else None
      | _, _ => None
      end
  | _ => None
  end.

(** The directive [%Y] is the pattern [\d\d\d\d]. *)
Definition match_Y (cs : list ascii) : option Z :=
  match cs with
  | [c1; c2; c3; c4] =>
      match digit_val c1, digit_val c2, digit_val c3, digit_val c4 with
      | Some a, Some b, Some c, Some d => Some (1000 * a + 100 * b + 10 * c + d)
      | _, _, _, _ => None
      end
  | _ => None
  end.

(** Splits at the first ["-"]. *)
Fixpoint split_dash (cs : list ascii) : option (list ascii * list ascii) :=
  match cs with
  | [] => None
  | c :: cs' =>
      if Ascii.eqb c "-" then Some ([], cs')
      else match split_dash cs' with
           | Some (a, b) => Some (c :: a, b)
           | None => None
           end
  end.

Definition bad_format (s : string) : exn :=
  Exn ValueError ("time data does not match format '%Y-%m-%d': " +:+ s).

(** [datetime.datetime.strptime(s, "%Y-%m-%d")] on ASCII input: the three
    fields are matched, then the [datetime] constructor checks the ranges. *)
Definition strptime_ymd (s : string) : exn + datetime :=
  match split_dash (list_ascii_of_string s) with
  | Some (ys, rest) =>
      match split_dash rest with
      | Some (ms, ds) =>
          match match_Y ys, match_m ms, match_d ds with
          | Some y, Some m, Some d =>
              if (1 <=? y) && (d <=? _days_in_month y m)
              then inr (mkDatetime y m d 0 0 0 0)
              else inl (Exn ValueError "day is out of range for month")
          | _, _, _ => inl (bad_format s)
          end
      | None => inl (bad_format s)
      end
  | None => inl (bad_format s)
  end.

(** A reading of the wall clock is a valid naive datetime. *)
Definition valid_datetime (d : datetime) : Prop :=
  1 <= year d <= 9999 /\ 1 <= month d <= 12 /\
  1 <= day d <= _days_in_month (year d) (month d) /\
  0 <= hour d < 24 /\ 0 <= minute d < 60 /\ 0 <= second d < 60 /\
  0 <= microsecond d < 1000000.

End PyDatetime.

(** ** POSIX [os.path.join] on two components *)

Definition startswith_sep (s : string) : bool :=
  match s with
  | String c _ => Ascii.eqb c "/"
  | EmptyString => false
  end.

Fixpoint endswith_sep (s : string) : bool :=
  match s with
  | EmptyString => false
  | String c EmptyString => Ascii.eqb c "/"
  | String _ s' => endswith_sep s'
  end.

Definition os_path_join (a b : string) : string :=
  if startswith_sep b then b
  else if String.eqb a EmptyString || endswith_sep a then a +:+ b
  else a +:+ "/" +:+ b.

(** ** Data model *)

(** A station or module entry of the station listing.  A station carries
    its modules under the key ['modules']; the keys ['module_name'], ['_id']
    and ['data_type'] are read from stations and modules alike. *)
#[warnings="-register-all"] Inductive device := Device {
  module_name : string;
  _id : string;
  data_type : list string;
  modules : list device }.

(** Keyword arguments of [WeatherStationData.getMeasure]. *)
Record request := Request {
  device_id : string;
  module_id : string;
  scale : string;
  mtype : string;
  date_begin : Z;
  date_end : Z }.

(** The credentials dictionary. *)
Definition dict := list (string * string).

(** The token object returned by [lnetatmo.ClientAuth]. *)
Definition authorization := string.

Definition CONFIG_FILENAME : string := "authorization.json".

Section Sampler.

(** The type of one measured value (a JSON number); the script never
    computes with it. *)
Context {V : Type}.

(** [resp['body']]: epoch timestamp to list of values, in the order of the
    response. *)
Definition body := list (Z * list V).

(** The session handle: the station listing fetched at construction (a
    dictionary keyed by station id, in insertion order) and the measurement
    request, which yields [resp['body']] or the exception raised on the way. *)
Record WSD := mkWSD {
  stations : list (string * device);
  getMeasure : request -> exn + body }.

(** A [pandas.DataFrame] built from the two columns, and the CSV file
    [to_csv] writes for it: a header row and one record per row, preceded
    by the row number unless [index=False]. *)
Record DataFrame := mkDataFrame { DateTime : list string; Value : list V }.

Inductive cell :=
| CIndex (i : nat)
| CText (s : string)
| CValue (v : V).

Record csv := mkCsv { header : list string; records : list (list cell) }.

Definition to_csv (df : DataFrame) (index : bool) : csv :=
  let rows := combine (DateTime df) (Value df) in
  if index then
    mkCsv (EmptyString :: ["DateTime"; "Value"])
          (imap (fun i '(d, v) => [CIndex i; CText d; CValue v]) rows)
  else
    mkCsv ["DateTime"; "Value"]
          (map (fun '(d, v) => [CText d; CValue v]) rows).

(** What a run leaves behind, in program order.  [EvStationWalk] records an
    invocation of [data_sampler_stations] with its three arguments. *)
Inductive event :=
| EvOpen (path : string)
| EvClientAuth (auth : dict)
| EvStationsData (a : authorization)
| EvGetMeasure (r : request)
| EvWrite (path : string) (content : csv)
| EvPrint (line : string)
| EvStationWalk (wsd : option WSD) (date dp_save : option string).

(** The events that reach the network. *)
Definition is_network (ev : event) : bool :=
  match ev with
  | EvClientAuth _ | EvStationsData _ | EvGetMeasure _ => true
  | _ => false
  end.

(** Everything outside the script. *)
Record World := mkWorld {
  (** directory of the script file *)
  THISDIR : string;
  (** outcome of opening and [json.load]ing the credentials file *)
  config_file : exn + dict;
  (** [lnetatmo.ClientAuth]: the token exchange *)
  ClientAuth : dict -> exn + authorization;
  (** the [WeatherStationData] constructor *)
  WeatherStationData : authorization -> exn + WSD;
  (** [lnetatmo.toEpoch] and [lnetatmo.toTimeString] (local time zone) *)
  toEpoch : string -> exn + Z;
  toTimeString : Z -> string;
  (** successive readings of [datetime.datetime.now()] *)
  clock : nat -> PyDatetime.datetime }.

Record State := mkState {
  fs : gmap string csv;
  trace : list event;
  ticks : nat }.

Variable W : World.

Definition STOREDIR : string := os_path_join (THISDIR W) "data".

(** ** State and exception monad *)

Definition M (A : Type) : Type := State -> (exn + A) * State.

Definition ret {A} (a : A) : M A := fun st => (inr a, st).

Definition raise {A} (e : exn) : M A := fun st => (inl e, st).

Definition bind {A B} (m : M A) (k : A -> M B) : M B :=
  fun st =>
    match m st with
    | (inr a, st') => k a st'
    | (inl e, st') => (inl e, st')
    end.

Definition lift {A} (r : exn + A) : M A := fun st => (r, st).

Notation "x <- m ;; k" := (bind m (fun x => k))
  (at level 100, m at next level, right associativity).
Notation "m ;;; k" := (bind m (fun _ => k))
  (at level 100, right associativity).

(** [try: m except cls: h] *)
Definition try_except {A} (m : M A) (cls : exn_class) (h : M A) : M A :=
  fun st =>
    match m st with
    | (inl e, st') =>
        if bool_decide (exn_cls e = cls) then h st' else (inl e, st')
    | r => r
    end.

Definition emit (ev : event) : M unit :=
  fun st => (inr tt, mkState (fs st) (trace st ++ [ev]) (ticks st)).

(** [df.to_csv(path, index=False)] creates or replaces the file; the
    destination directory is assumed to exist. *)
Definition write_file (path : string) (c : csv) : M unit :=
  fun st =>
    (inr tt, mkState (<[path := c]> (fs st)) (trace st ++ [EvWrite path c]) (ticks st)).

Definition datetime_now : M PyDatetime.datetime :=
  fun st => (inr (clock W (ticks st)), mkState (fs st) (trace st) (S (ticks st))).

Definition print (s : string) : M unit := emit (EvPrint s).

(** [for x in l: f x] *)
Fixpoint for_each {A} (l : list A) (f : A -> M unit) : M unit :=
  match l with
  | [] => ret tt
  | x :: l' => f x ;;; for_each l' f
  end.

(** Truth value of an optional argument: [None], the empty string and the
    empty dictionary are false. *)
Definition not_str (o : option string) : bool :=
  match o with
  | None => true
  | Some s => String.eqb s EmptyString
  end.

Definition not_dict (o : option dict) : bool :=
  match o with
  | None | Some [] => true
  | Some (_ :: _) => false
  end.

(** ** Positional calls

    A call binds the positional arguments to the parameters of the callee;
    a parameter without default that receives no argument is a
    [TypeError]. *)

Inductive pyval :=
| PyStr (s : string)
| PyDevice (d : device)
| PyWSD (w : WSD).

Record pyfun := mkPyfun {
  fn_name : string;
  fn_params : list string;
  fn_body : list pyval -> M unit }.

Definition missing_args (f : pyfun) (given : nat) : exn :=
  Exn TypeError
    match drop given (fn_params f) with
    | [x] => fn_name f +:+ "() missing 1 required positional argument: '" +:+ x +:+ "'"
    | xs => fn_name f +:+ "() missing required positional arguments: "
              +:+ String.concat ", " xs
    end.

Definition too_many_args (f : pyfun) : exn :=
  Exn TypeError (fn_name f +:+ "() takes fewer positional arguments").

Definition py_call (f : pyfun) (args : list pyval) : M unit :=
  if (length args <? length (fn_params f))%nat then raise (missing_args f (length args))
  else if (length (fn_params f) <? length args)%nat then raise (too_many_args f)
  else fn_body f args.

(** ** [_init_wsd] *)

Definition missing_configuration : exn :=
  Exn FileNotFoundError
    "Either use input config or store your authorization details in a file auth.json".

Definition _init_wsd (auth : option dict) : M WSD :=
  auth <- (if not_dict auth then
             try_except
               (emit (EvOpen (os_path_join (THISDIR W) CONFIG_FILENAME)) ;;;
                lift (config_file W))
               FileNotFoundError
               (raise missing_configuration)
           else ret (default [] auth)) ;;
  emit (EvClientAuth auth) ;;;
  authorization <- lift (ClientAuth W auth) ;;
  emit (EvStationsData authorization) ;;;
  wsd <- lift (WeatherStationData W authorization) ;;
  ret wsd.

(** ** [_data_sampler_device] *)

Definition csv_path (dp date name mtype : string) : string :=
  os_path_join dp (date +:+ "_" +:+ name +:+ "_" +:+ mtype +:+ ".csv").

(** [[value[0] for value in data.values()]] *)
Fixpoint first_values (data : body) : exn + list V :=
  match data with
  | [] => inr []
  | (_, value) :: data' =>
      match value with
      | [] => inl (Exn IndexError "list index out of range")
      | v :: _ =>
          match first_values data' with
          | inr vs => inr (v :: vs)
          | inl e => inl e
          end
      end
  end.

(** The body of the loop over [mtypes]. *)
Definition sample_mtype (wsd : WSD) (base ident name date dp : string)
    (tstart tend : Z) (mtype : string) : M unit :=
  let rq := Request base ident "max" mtype tstart tend in
  emit (EvGetMeasure rq) ;;;
  data <- lift (getMeasure wsd rq) ;;
  let datetime := map (fun '(key, _) => toTimeString W key) data in
  values <- lift (first_values data) ;;
  let df := mkDataFrame datetime values in
  write_file (csv_path dp date name mtype) (to_csv df false).

Definition _data_sampler_device (wsd : WSD) (base : string) (device : device)
    (date dp : string) : M unit :=
  let name := module_name device in
  let ident := _id device in
  let mtypes := data_type device in
  tstart <- lift (toEpoch W (date +:+ "_00:00:01")) ;;
  tend <- lift (toEpoch W (date +:+ "_23:59:59")) ;;
  for_each mtypes (sample_mtype wsd base ident name date dp tstart tend).

(** The function object: five parameters, none with a default. *)
Definition _data_sampler_device_fn : pyfun :=
  mkPyfun "_data_sampler_device" ["wsd"; "base"; "device"; "date"; "dp"]
    (fun args =>
       match args with
       | [PyWSD wsd; PyStr base; PyDevice device; PyStr date; PyStr dp] =>
           _data_sampler_device wsd base device date dp
       | _ => raise (Exn TypeError "argument of unexpected type")
       end).

(** ** [data_sampler_stations] *)

(** [(datetime.datetime.now() - datetime.timedelta(days=1)).strftime("%Y-%m-%d")] *)
Definition yesterday : M string :=
  now <- datetime_now ;;
  d <- lift (PyDatetime.datetime_sub_days now 1) ;;
  ret (PyDatetime.strftime_ymd d).

(** [if not wsd: wsd = _init_wsd()]; a handle object is true. *)
Definition wsd_or_init (wsd : option WSD) : M WSD :=
  match wsd with
  | None => _init_wsd None
  | Some w => ret w
  end.

(** [if not date: date = ...] *)
Definition date_or_yesterday (date : option string) : M string :=
  if not_str date then yesterday else ret (default EmptyString date).

(** [if not dp_save: dp_save = STOREDIR] *)
Definition dp_save_or_STOREDIR (dp_save : option string) : string :=
  if not_str dp_save then STOREDIR else default EmptyString dp_save.

(** The body of the loop over [stations.values()].  The name
    [_data_sampler_device] of the two calls is a global of the module,
    looked up when the call is executed: [callee] is the function object the
    name is bound to at that moment. *)
Definition sample_station_with (callee : pyfun) (wsd : WSD) (date : string)
    (station : device) : M unit :=
  let base := _id station in
  py_call callee
    [PyWSD wsd; PyStr base; PyDevice station; PyStr date] ;;;
  for_each (modules station) (fun module =>
    py_call callee
      [PyWSD wsd; PyStr base; PyDevice module; PyStr date]).

Definition data_sampler_stations_with (callee : pyfun) (wsd : option WSD)
    (date dp_save : option string) : M unit :=
  emit (EvStationWalk wsd date dp_save) ;;;
  wsd <- wsd_or_init wsd ;;
  date <- date_or_yesterday date ;;
  let dp_save := dp_save_or_STOREDIR dp_save in
  let stations := stations wsd in
  for_each (map snd stations) (sample_station_with callee wsd date).

(** In the module as it stands the name is bound to the function of five
    parameters defined above, and nothing rebinds it. *)
Definition sample_station : WSD -> string -> device -> M unit :=
  sample_station_with _data_sampler_device_fn.

Definition data_sampler_stations
    : option WSD -> option string -> option string -> M unit :=
  data_sampler_stations_with _data_sampler_device_fn.

(** A function object of four positional parameters that passes them on to
    [_data_sampler_device] together with the directory [dp]:
    [lambda wsd, base, device, date: _data_sampler_device(wsd, base, device, date, dp)]. *)
Definition sampler_into (dp : string) : pyfun :=
  mkPyfun "<lambda>" ["wsd"; "base"; "device"; "date"]
    (fun args =>
       match args with
       | [PyWSD wsd; PyStr base; PyDevice device; PyStr date] =>
           _data_sampler_device wsd base device date dp
       | _ => raise (Exn TypeError "argument of unexpected type")
       end).

(** The argument lists of the calls written in the body of the station
    loop, in program order: the station itself, then each of its modules. *)
Definition station_calls (wsd : WSD) (date : string) (station : device)
    : list (list pyval) :=
  let base := _id station in
  [PyWSD wsd; PyStr base; PyDevice station; PyStr date]
  :: map (fun module => [PyWSD wsd; PyStr base; PyDevice module; PyStr date])
         (modules station).

(** ** [data_sampler_stations_period] *)

(** The loop [while n>0: ...; n = n-1], entered with [n] iterations left. *)
Fixpoint period_loop (wsd : WSD) (dp_save : string) (n : nat) : M unit :=
  match n with
  | O => ret tt
  | S n' =>
      now <- datetime_now ;;
      d <- lift (PyDatetime.datetime_sub_days now (Z.of_nat n)) ;;
      let sday := PyDatetime.strftime_ymd d in
      print sday ;;;
      data_sampler_stations (Some wsd) (Some sday) (Some dp_save) ;;;
      period_loop wsd dp_save n'
  end.

Definition data_sampler_stations_period (date_start : string)
    (dp_save : option string) : M unit :=
  let dp_save := dp_save_or_STOREDIR dp_save in
  wsd <- _init_wsd None ;;
  d0 <- lift (PyDatetime.strptime_ymd date_start) ;;
  d1 <- datetime_now ;;
  let dt := PyDatetime.datetime_sub d1 d0 in
  let n := PyDatetime.days dt in
  period_loop wsd dp_save (Z.to_nat n).

End Sampler.

Arguments WSD : clear implicits.
Arguments World : clear implicits.
Arguments State : clear implicits.
Arguments event : clear implicits.
Arguments csv : clear implicits.
Arguments cell : clear implicits.
Arguments body : clear implicits.
Arguments pyval : clear implicits.
Arguments pyfun : clear implicits.
Arguments DataFrame : clear implicits.
Arguments M : clear implicits.

(** ** A concrete world for the examples

    Values are integers, local time is UTC, the credentials file exists and
    the account holds the station "S1" (Outdoor, Temperature) with the
    module "M1" (Rain, Rain). *)

Module Fixture.
Import PyDatetime.
Local Open Scope Z_scope.

Definition epoch_ordinal : Z := 719163.

Definition two_digits (a b : ascii) : option Z :=
  match digit_val a, digit_val b with
  | Some x, Some y => Some (10 * x + y)
  | _, _ => None
  end.

(** [lnetatmo.toEpoch] for a machine whose local time is UTC. *)
Definition utc_toEpoch (s : string) : exn + Z :=
  let bad := inl (Exn ValueError "time data does not match format") in
  match list_ascii_of_string (String.substring 10 9 s) with
  | ["_"; h1; h2; ":"; m1; m2; ":"; s1; s2]%char =>
      match strptime_ymd (String.substring 0 10 s),
            two_digits h1 h2, two_digits m1 m2, two_digits s1 s2 with
      | inr d, Some h, Some m, Some sec =>
          if (String.length s =? 19)%nat then
            inr ((toordinal d - epoch_ordinal) * 86400 + h * 3600 + m * 60 + sec)
          else bad
      | _, _, _, _ => bad
      end
  | _ => bad
  end.

(** [lnetatmo.toTimeString] for the same machine. *)
Definition utc_toTimeString (t : Z) : string :=
  let '(y, m, d) := _ord2ymd (t / 86400 + epoch_ordinal) in
  let r := t mod 86400 in
  pad4 y +:+ "-" +:+ pad2 m +:+ "-" +:+ pad2 d +:+ "_"
    +:+ pad2 (r / 3600) +:+ ":" +:+ pad2 (r mod 3600 / 60) +:+ ":" +:+ pad2 (r mod 60).

Definition M1 : device := Device "Rain" "M1" ["Rain"] [].
Definition S1 : device := Device "Outdoor" "S1" ["Temperature"] [M1].

(** Two temperature points with a packed second value, no rain. *)
Definition measure (r : request) : exn + body Z :=
  if String.eqb (mtype r) "Temperature"
  then inr [(1709251500, [215; 7]); (1709251800, [216; 8])]
  else inr [].

Definition wsd1 : WSD Z := mkWSD [("S1", S1)] measure.

(** The same account when the second temperature point carries no value. *)
Definition measure_gap (r : request) : exn + body Z :=
  if String.eqb (mtype r) "Temperature"
  then inr [(1709251500, [215; 7]); (1709251800, [])]
  else inr [].

Definition wsd_gap : WSD Z := mkWSD [("S1", S1)] measure_gap.

(** An account without stations. *)
Definition wsd0 : WSD Z := mkWSD [] measure.

Definition credentials : dict :=
  [("clientID", "id"); ("clientSecret", "secret"); ("username", "user");
   ("password", "pw"); ("scope", "read_station")].

(** 4 March 2024, 13:05:07. *)
Definition now0 : datetime := mkDatetime 2024 3 4 13 5 7 0.

Definition world (w : WSD Z) : World Z :=
  mkWorld "/app" (inr credentials) (fun _ => inr "token") (fun _ => inr w)
          utc_toEpoch utc_toTimeString (fun _ => now0).

(** The same machine without a credentials file. *)
Definition world_no_config : World Z :=
  mkWorld "/app" (inl (Exn FileNotFoundError "No such file or directory"))
          (fun _ => inr "token") (fun _ => inr wsd1)
          utc_toEpoch utc_toTimeString (fun _ => now0).

Definition st0 : State Z := mkState ∅ [] 0.

End Fixture.

(** ** What one run of the metric loop does, as pure functions

    For one device, date and destination directory the loop of
    [_data_sampler_device] is determined by the responses of the session
    handle.  These functions describe, without the monad, the request of a
    metric, the file it leads to, and the files, events and outcome of the
    loop; [for_each_sample_mtype] below proves that the loop computes
    them. *)

Section DevicePlan.
Context {V : Type} (W : World V) (wsd : WSD V) (base : string) (dev : device)
        (date dp : string) (tstart tend : Z).

Definition metric_request (m : string) : request :=
  Request base (_id dev) "max" m tstart tend.

Definition metric_path (m : string) : string :=
  csv_path dp date (module_name dev) m.

Definition metric_csv (m : string) : exn + csv V :=
  match getMeasure wsd (metric_request m) with
  | inl e => inl e
  | inr data =>
      match first_values data with
      | inl e => inl e
      | inr values =>
          inr (to_csv (mkDataFrame (map (fun '(key, _) => toTimeString W key) data)
                                   values) false)
      end
  end.

Fixpoint loop_fs (ms : list string) (files : gmap string (csv V))
    : gmap string (csv V) :=
  match ms with
  | [] => files
  | m :: ms' =>
      match metric_csv m with
      | inr c => loop_fs ms' (<[metric_path m := c]> files)
      | inl _ => files
      end
  end.

Fixpoint loop_events (ms : list string) : list (event V) :=
  match ms with
  | [] => []
  | m :: ms' =>
      match metric_csv m with
      | inr c =>
          EvGetMeasure (metric_request m) :: EvWrite (metric_path m) c
            :: loop_events ms'
      | inl _ => [EvGetMeasure (metric_request m)]
      end
  end.

Fixpoint loop_result (ms : list string) : exn + unit :=
  match ms with
  | [] => inr tt
  | m :: ms' =>
      match metric_csv m with
      | inr _ => loop_result ms'
      | inl e => inl e
      end
  end.

(** The last file the loop writes at path [k], if any. *)
Fixpoint loop_last (ms : list string) (k : string) : option (csv V) :=
  match ms with
  | [] => None
  | m :: ms' =>
      match metric_csv m with
      | inl _ => None
      | inr c =>
          match loop_last ms' k with
          | Some c' => Some c'
          | None => if decide (metric_path m = k) then Some c else None
          end
      end
  end.

End DevicePlan.

(** A measurement mapping in which every timestamp has at least one value. *)
Definition nonempty_values {V} (data : body V) : Prop :=
  Forall (fun p => snd p <> []) data.

(** The station-walk events of a trace, in order. *)
Definition walks {V} (tr : list (event V))
    : list (option (WSD V) * option string * option string) :=
  omap (fun ev => match ev with
                  | EvStationWalk w d p => Some (w, d, p)
                  | _ => None
                  end) tr.

(** The requests of a trace, in order. *)
Definition requests {V} (tr : list (event V)) : list request :=
  omap (fun ev => match ev with
                  | EvGetMeasure r => Some r
                  | _ => None
                  end) tr.

(** The paths written in a trace, in order. *)
Definition written {V} (tr : list (event V)) : list string :=
  omap (fun ev => match ev with
                  | EvWrite p _ => Some p
                  | _ => None
                  end) tr.

(** The calendar day with proleptic ordinal [o], printed as by
    [strftime("%Y-%m-%d")]. *)
Definition day_string (o : Z) : string :=
  let '(y, m, d) := PyDatetime._ord2ymd o in
  PyDatetime.strftime_ymd (PyDatetime.mkDatetime y m d 0 0 0 0).

(** A date written with four, two and two digits. *)
Definition canonical_ymd (s : string) : Prop :=
  exists y1 y2 y3 y4 m1 m2 d1 d2,
    s = String y1 (String y2 (String y3 (String y4 (String "-"
          (String m1 (String m2 (String "-" (String d1 (String d2 EmptyString)))))))))
    /\ Forall (fun c => is_Some (PyDatetime.digit_val c)) [y1; y2; y3; y4; m1; m2; d1; d2].

(** ** What [_init_wsd] does, as a pure function

    The outcome and the events of the session initializer, determined by
    the argument and the world; [_init_wsd_run] below proves that
    [_init_wsd] computes them. *)

Section InitPlan.
Context {V : Type} (W : World V).

Definition connect (d : dict) : (exn + WSD V) * list (event V) :=
  match ClientAuth W d with
  | inl e => (inl e, [EvClientAuth d])
  | inr a => (WeatherStationData W a, [EvClientAuth d; EvStationsData a])
  end.

Definition init_plan (auth : option dict) : (exn + WSD V) * list (event V) :=
  if not_dict auth then
    let opened := EvOpen (os_path_join (THISDIR W) CONFIG_FILENAME) in
    match config_file W with
    | inl e =>
        (inl (if bool_decide (exn_cls e = FileNotFoundError)
              then missing_configuration else e), [opened])
    | inr d => (fst (connect d), opened :: snd (connect d))
    end
  else connect (default [] auth).

(** The credentials file does not exist. *)
Definition config_missing : Prop :=
  exists e, config_file W = inl e /\ exn_cls e = FileNotFoundError.

(** The credentials [_init_wsd] works with, when there are any. *)
Definition credentials_from (auth : option dict) (d : dict) : Prop :=
  (not_dict auth = false /\ auth = Some d)
  \/ (not_dict auth = true /\ config_file W = inr d).

End InitPlan.

(** The exception of a call of [_data_sampler_device] with four arguments. *)
Definition arity_error {V} (W : World V) : exn :=
  missing_args (_data_sampler_device_fn W) 4.

(** The invocations of the station walker for [n] consecutive days from the
    day with ordinal [first], all with the handle [w] and the directory
    [dp]. *)
Fixpoint period_walks {V} (w : WSD V) (dp : string) (first : Z) (n : nat)
    : list (option (WSD V) * option string * option string) :=
  match n with
  | O => []
  | S n' => (Some w, Some (day_string first), Some dp)
            :: period_walks w dp (first + 1) n'
  end.

(** ** Descriptions used by the further properties *)

(** The records [to_csv] writes for a measurement mapping: one per
    timestamp that has a value, in the order of the mapping, with the
    converted timestamp and the first value. *)
Definition first_value_rows {V} (W : World V) (data : body V) : list (list (cell V)) :=
  omap (fun p => match snd p with
                 | v :: _ => Some [CText (toTimeString W (fst p)); CValue v]
                 | [] => None
                 end) data.

(** The ordinals of the days [period_loop] passes on when it is entered
    with [n] iterations left and its next clock reading is the [t]-th:
    iteration [i] reads the clock and goes back [n - i] days. *)
Fixpoint period_days {V} (W : World V) (t n : nat) : list Z :=
  match n with
  | O => []
  | S n' => (PyDatetime.toordinal (clock W t) - Z.of_nat n)%Z
            :: period_days W (S t) n'
  end.

(** The events of one iteration of [period_loop] for the day printed [s]. *)
Definition iteration_events {V} (w : WSD V) (dp s : string) : list (event V) :=
  [EvPrint s; EvStationWalk (Some w) (Some s) (Some dp)].

(** The token exchanges and the credentials-file openings of a trace. *)
Definition exchanges {V} (tr : list (event V)) : list dict :=
  omap (fun ev => match ev with
                  | EvClientAuth d => Some d
                  | _ => None
                  end) tr.

Definition opened {V} (tr : list (event V)) : list string :=
  omap (fun ev => match ev with
                  | EvOpen p => Some p
                  | _ => None
                  end) tr.

(** The handle constructions of a trace. *)
Definition constructions {V} (tr : list (event V)) : list authorization :=
  omap (fun ev => match ev with
                  | EvStationsData a => Some a
                  | _ => None
                  end) tr.

(** The events of one iteration are prints and station walks with the
    handle [w] and the directory [dp]. *)
Definition print_or_walk {V} (w : WSD V) (dp : string) (ev : event V) : Prop :=
  exists s, ev = EvPrint s \/ ev = EvStationWalk (Some w) (Some s) (Some dp).

(** The events a run that ends in the state [st'] has added to the trace of
    the state [st] it started from. *)
Definition added {V} (st st' : State V) : list (event V) :=
  drop (length (trace st)) (trace st').

(** The requests a run [m] adds when started in [st]: each of them
    satisfies [P], and when the run returns normally each property in [O]
    is met by one of them. *)
Definition requests_added {V} (m : M V unit) (st : State V)
    (P : request -> Prop) (O : (request -> Prop) -> Prop) : Prop :=
  exists evs,
    trace (snd (m st)) = (trace st ++ evs)%list /\
    (forall rq, rq ∈ requests evs -> P rq) /\
    (fst (m st) = inr tt ->
     forall o, O o -> exists rq, rq ∈ requests evs /\ o rq).

(** ** More accounts and machines for the examples *)

Module Fixture2.
Import PyDatetime Fixture.
Local Open Scope Z_scope.

(** A station with two metrics, and a second module named like "M1". *)
Definition S2 : device := Device "Indoor" "S2" ["Temperature"; "Humidity"] [].
Definition M2 : device := Device "Rain" "M2" ["Rain"] [].

(** The service answers for temperature and is unreachable for the rest. *)
Definition measure_down (r : request) : exn + body Z :=
  if String.eqb (mtype r) "Temperature"
  then inr [(1709251500, [215; 7]); (1709251800, [216; 8])]
  else inl (Exn (OtherError "ConnectionError") "timed out").

Definition wsd_down : WSD Z := mkWSD [("S2", S2)] measure_down.

(** Only the module "M2" has rain data. *)
Definition measure_twins (r : request) : exn + body Z :=
  if String.eqb (module_id r) "M2" then inr [(1709251500, [5])] else inr [].

Definition wsd_twins : WSD Z := mkWSD [("S1", S1)] measure_twins.

(** A machine whose credentials file is not valid JSON. *)
Definition world_bad_json : World Z :=
  mkWorld "/app" (inl (Exn (OtherError "JSONDecodeError") "Expecting value"))
          (fun _ => inr "token") (fun _ => inr wsd1)
          utc_toEpoch utc_toTimeString (fun _ => now0).

(** A machine with a credentials file on which the token exchange raises a
    [FileNotFoundError] of its own: the library looks for a file that is
    not there. *)
Definition world_library_file_missing : World Z :=
  mkWorld "/app" (inr credentials)
          (fun _ => inl (Exn FileNotFoundError "No such file or directory"))
          (fun _ => inr wsd1)
          utc_toEpoch utc_toTimeString (fun _ => now0).

(** A run that passes midnight: the first two clock readings fall on
    4 March 2024, the later ones on 5 March. *)
Definition before_midnight : datetime := mkDatetime 2024 3 4 23 59 59 0.
Definition after_midnight : datetime := mkDatetime 2024 3 5 0 0 1 0.

Definition world_midnight : World Z :=
  mkWorld "/app" (inr credentials) (fun _ => inr "token") (fun _ => inr wsd0)
          utc_toEpoch utc_toTimeString
          (fun k => if (k <? 2)%nat then before_midnight else after_midnight).

End Fixture2.

(** * Examples *)

Module DatetimeExamples.
Import PyDatetime.
Local Open Scope Z_scope.

Example ord_2024_03_01 : _ymd2ord 2024 3 1 = 738946.
Proof. reflexivity. Qed.

Example ymd_738946 : _ord2ymd 738946 = (2024, 3, 1).
Proof. reflexivity. Qed.

Example ymd_leap_day : _ord2ymd (_ymd2ord 2024 2 29) = (2024, 2, 29).
Proof. reflexivity. Qed.

Example ymd_year_end : _ord2ymd (_ymd2ord 2023 12 31) = (2023, 12, 31).
Proof. reflexivity. Qed.

Example ymd_first : _ord2ymd 1 = (1, 1, 1).
Proof. reflexivity. Qed.

Example ymd_last : _ord2ymd _MAXORDINAL = (9999, 12, 31).
Proof. reflexivity. Qed.

Example parse_ok :
  strptime_ymd "2024-03-01" = inr (mkDatetime 2024 3 1 0 0 0 0).
Proof. reflexivity. Qed.

Example parse_short : strptime_ymd "2024-3-1" = inr (mkDatetime 2024 3 1 0 0 0 0).
Proof. reflexivity. Qed.

Example parse_bad_day : exists m, strptime_ymd "2023-02-29" = inl (Exn ValueError m).
Proof. eexists. reflexivity. Qed.

Example parse_bad_shape : exists m, strptime_ymd "01.03.2024" = inl (Exn ValueError m).
Proof. eexists. reflexivity. Qed.

Example format_ok : strftime_ymd (mkDatetime 2024 3 1 13 5 0 0) = "2024-03-01".
Proof. reflexivity. Qed.

Example minus_days :
  datetime_sub_days (mkDatetime 2024 3 1 13 5 7 9) 1 = inr (mkDatetime 2024 2 29 13 5 7 9).
Proof. reflexivity. Qed.

Example delta_days :
  days (datetime_sub (mkDatetime 2024 3 4 0 0 0 0) (mkDatetime 2024 3 1 0 0 0 0)) = 3.
Proof. reflexivity. Qed.

Example delta_days_future :
  days (datetime_sub (mkDatetime 2024 3 4 13 0 0 0) (mkDatetime 2024 3 5 0 0 0 0)) = -1.
Proof. reflexivity. Qed.

End DatetimeExamples.

Module FixtureExamples.
Import PyDatetime Fixture.
Local Open Scope Z_scope.

Example toEpoch_start : utc_toEpoch "2024-03-01_00:00:01" = inr 1709251201.
Proof. reflexivity. Qed.

Example toTimeString_point : utc_toTimeString 1709251500 = "2024-03-01_00:05:00".
Proof. reflexivity. Qed.

Example STOREDIR_app : STOREDIR (world wsd1) = "/app/data".
Proof. reflexivity. Qed.

End FixtureExamples.

(** * Proofs *)

(** ** Strings and paths *)

Lemma append_cons (x : ascii) (a b : string) : String x a +:+ b = String x (a +:+ b).
Proof. reflexivity. Qed.

Lemma list_ascii_app (a b : string) :
  list_ascii_of_string (a +:+ b) = (list_ascii_of_string a ++ list_ascii_of_string b)%list.
Proof.
  induction a as [|c a IH]; [done |].
  rewrite append_cons. simpl. by rewrite IH.
Qed.

Lemma list_ascii_inj (a b : string) :
  list_ascii_of_string a = list_ascii_of_string b -> a = b.
Proof.
  intros H. rewrite <- (string_of_list_ascii_of_string a), H.
  apply string_of_list_ascii_of_string.
Qed.

Lemma append_cancel_r (a b t : string) : a +:+ t = b +:+ t -> a = b.
Proof.
  intros H. apply list_ascii_inj.
  apply (f_equal list_ascii_of_string) in H.
  rewrite !list_ascii_app in H. by apply app_inv_tail in H.
Qed.

Lemma append_cancel_l (p a b : string) : p +:+ a = p +:+ b -> a = b.
Proof.
  induction p as [|c p IH]; [done |]. rewrite !append_cons. intros [= H]. auto.
Qed.

Lemma append_assoc (a b c : string) : (a +:+ b) +:+ c = a +:+ (b +:+ c).
Proof. induction a as [|x a IH]; [done |]. rewrite !append_cons. by f_equal. Qed.

Lemma startswith_sep_append (p x : string) :
  p <> EmptyString -> startswith_sep (p +:+ x) = startswith_sep p.
Proof. by destruct p. Qed.

Lemma os_path_join_inj (a p x y : string) :
  p <> EmptyString -> os_path_join a (p +:+ x) = os_path_join a (p +:+ y) -> x = y.
Proof.
  intros Hp. unfold os_path_join.
  rewrite !startswith_sep_append by done.
  destruct (startswith_sep p); [apply append_cancel_l |].
  destruct (String.eqb a EmptyString || endswith_sep a); intros H.
  - by do 2 apply append_cancel_l in H.
  - by do 3 apply append_cancel_l in H.
Qed.

(** Two metrics of one device and day never share a file. *)
Lemma csv_path_inj (dp date name m1 m2 : string) :
  csv_path dp date name m1 = csv_path dp date name m2 -> m1 = m2.
Proof.
  unfold csv_path. intros H.
  assert (E : forall m, date +:+ "_" +:+ name +:+ "_" +:+ m +:+ ".csv"
                        = (date +:+ "_") +:+ (name +:+ "_" +:+ m +:+ ".csv")).
  { intros m. by rewrite append_assoc. }
  rewrite !E in H. apply os_path_join_inj in H.
  - do 2 apply append_cancel_l in H. by apply append_cancel_r in H.
  - by destruct date.
Qed.

(** ** Projections of a trace *)

Lemma walks_app {V} (a b : list (event V)) :
  walks (a ++ b)%list = (walks a ++ walks b)%list.
Proof. apply omap_app. Qed.

Lemma requests_app {V} (a b : list (event V)) :
  requests (a ++ b)%list = (requests a ++ requests b)%list.
Proof. apply omap_app. Qed.

Lemma written_app {V} (a b : list (event V)) :
  written (a ++ b)%list = (written a ++ written b)%list.
Proof. apply omap_app. Qed.

(** ** The metric loop *)

Section DeviceLemmas.
Context {V : Type} (W : World V) (wsd : WSD V) (base : string) (dev : device)
        (date dp : string) (tstart tend : Z).

Local Abbreviation rq := (metric_request base dev tstart tend).
Local Abbreviation path := (metric_path dev date dp).
Local Abbreviation mcsv := (metric_csv W wsd base dev tstart tend).
Local Abbreviation lfs := (loop_fs W wsd base dev date dp tstart tend).
Local Abbreviation lev := (loop_events W wsd base dev date dp tstart tend).
Local Abbreviation lres := (loop_result W wsd base dev tstart tend).
Local Abbreviation llast := (loop_last W wsd base dev date dp tstart tend).
Local Abbreviation step :=
  (sample_mtype W wsd base (_id dev) (module_name dev) date dp tstart tend).
Local Abbreviation yields :=
  (fun m => is_Some (match mcsv m with inr c => Some c | inl _ => None end)).

Lemma metric_path_inj m1 m2 : path m1 = path m2 -> m1 = m2.
Proof. apply csv_path_inj. Qed.

Lemma sample_mtype_run m st :
  step m st =
  match mcsv m with
  | inr c =>
      (inr tt, mkState (<[path m := c]> (fs st))
                       (trace st ++ [EvGetMeasure (rq m); EvWrite (path m) c])
                       (ticks st))
  | inl e => (inl e, mkState (fs st) (trace st ++ [EvGetMeasure (rq m)]) (ticks st))
  end.
Proof.
  unfold sample_mtype, metric_csv, metric_request, metric_path, bind, emit, lift,
    write_file; simpl.
  destruct (getMeasure wsd _) as [e|data]; [done |].
  destruct (first_values data) as [e|values]; [done |]. simpl.
  by rewrite <- app_assoc.
Qed.

Lemma for_each_sample_mtype ms st :
  for_each ms step st =
  (lres ms, mkState (lfs ms (fs st)) (trace st ++ lev ms) (ticks st)).
Proof.
  revert st. induction ms as [|m ms IH]; intros st; simpl.
  - unfold ret. rewrite app_nil_r. by destruct st.
  - unfold bind. rewrite sample_mtype_run.
    destruct (mcsv m) as [e|c]; [done |].
    rewrite IH. simpl. by rewrite <- app_assoc.
Qed.

Lemma loop_fs_lookup ms files k :
  lfs ms files !! k = match llast ms k with Some c => Some c | None => files !! k end.
Proof.
  revert files. induction ms as [|m ms IH]; intros files; simpl; [done |].
  destruct (mcsv m) as [e|c]; [done |].
  rewrite IH. destruct (llast ms k) as [c'|]; [done |].
  case_decide as Hk.
  - subst k. by rewrite lookup_insert_eq.
  - by rewrite lookup_insert_ne.
Qed.

Lemma loop_last_Some ms k c :
  llast ms k = Some c -> exists m, m ∈ ms /\ path m = k /\ mcsv m = inr c.
Proof.
  induction ms as [|m ms IH]; simpl; [done |].
  destruct (mcsv m) as [e|c0] eqn:Hm; [done |].
  destruct (llast ms k) as [c'|].
  - intros [= ->]. destruct IH as (m' & ? & ? & ?); [done |].
    exists m'. split_and!; [by right | done | done].
  - case_decide; [|done]. intros [= ->]. exists m. split_and!; [by left | done | done].
Qed.

Lemma loop_last_app_ok pre rest k :
  Forall yields pre ->
  llast (pre ++ rest)%list k =
  match llast rest k with Some c => Some c | None => llast pre k end.
Proof.
  induction 1 as [|m pre [c Hm] _ IH]; simpl.
  - by destruct (llast rest k).
  - destruct (mcsv m) as [e|c0]; [done |]. rewrite IH.
    by destruct (llast rest k).
Qed.

Lemma loop_result_app_ok pre rest :
  Forall yields pre -> lres (pre ++ rest)%list = lres rest.
Proof.
  induction 1 as [|m pre [c Hm] _ IH]; simpl; [done |].
  by destruct (mcsv m).
Qed.

Lemma loop_events_app_ok pre rest :
  Forall yields pre -> lev (pre ++ rest)%list = (lev pre ++ lev rest)%list.
Proof.
  induction 1 as [|m pre [c Hm] _ IH]; simpl; [done |].
  destruct (mcsv m); [done |]. by rewrite IH.
Qed.

Lemma loop_events_written ms p :
  p ∈ written (lev ms) -> exists m, m ∈ ms /\ path m = p /\ exists c, mcsv m = inr c.
Proof.
  induction ms as [|m ms IH]; simpl; [set_solver |].
  destruct (mcsv m) as [e|c] eqn:Hm; simpl; [set_solver |].
  intros [->|Hin]%elem_of_cons.
  - exists m. split_and!; [by left | done | by exists c].
  - destruct (IH Hin) as (m' & ? & ? & ?). exists m'. split_and!; [by right | done | done].
Qed.

(** A metric that yields a file: after the loop that file is at its path,
    whatever follows it in the list. *)
Lemma loop_fs_written pre m post c files :
  Forall yields pre ->
  mcsv m = inr c ->
  lfs (pre ++ m :: post)%list files !! path m = Some c.
Proof.
  intros Hpre Hm. rewrite loop_fs_lookup, loop_last_app_ok by done.
  simpl. rewrite Hm.
  destruct (llast post (path m)) as [c'|] eqn:Hpost.
  - apply loop_last_Some in Hpost as (m' & _ & Hp & Hc).
    apply metric_path_inj in Hp. subst m'. congruence.
  - by rewrite decide_True.
Qed.

(** A metric that fails: the loop stops there and leaves the path of that
    metric as it was. *)
Lemma loop_fs_failed pre m post e files :
  Forall yields pre ->
  mcsv m = inl e ->
  lres (pre ++ m :: post)%list = inl e /\
  lfs (pre ++ m :: post)%list files !! path m = files !! path m /\
  path m ∉ written (lev (pre ++ m :: post)%list).
Proof.
  intros Hpre Hm. split_and!.
  - rewrite loop_result_app_ok by done. simpl. by rewrite Hm.
  - rewrite loop_fs_lookup, loop_last_app_ok by done. simpl. rewrite Hm.
    destruct (llast pre (path m)) as [c'|] eqn:Hl; [|done].
    apply loop_last_Some in Hl as (m' & _ & Hp & Hc).
    apply metric_path_inj in Hp. subst m'. congruence.
  - rewrite loop_events_app_ok by done. simpl. rewrite Hm.
    rewrite written_app. simpl. rewrite app_nil_r.
    intros (m' & _ & Hp & c & Hc)%loop_events_written.
    apply metric_path_inj in Hp. subst m'. congruence.
Qed.

(** Running the loop on its own result changes nothing. *)
Lemma loop_fs_idem ms files : lfs ms (lfs ms files) = lfs ms files.
Proof.
  apply map_eq. intros k. rewrite !loop_fs_lookup.
  by destruct (llast ms k).
Qed.

(** Every request of the loop is addressed to [base], for the device. *)
Lemma loop_events_requests ms r :
  r ∈ requests (lev ms) -> device_id r = base /\ module_id r = _id dev.
Proof.
  induction ms as [|m ms IH]; simpl; [set_solver |].
  destruct (mcsv m); simpl.
  - intros ->%list_elem_of_singleton. done.
  - intros [->|?]%elem_of_cons; [done | auto].
Qed.

End DeviceLemmas.

(** The device sampler computes the plan of its metric list. *)
Lemma _data_sampler_device_run {V} (W : World V) wsd base dev date dp st :
  _data_sampler_device W wsd base dev date dp st =
  match toEpoch W (date +:+ "_00:00:01") with
  | inl e => (inl e, st)
  | inr t0 =>
      match toEpoch W (date +:+ "_23:59:59") with
      | inl e => (inl e, st)
      | inr t1 =>
          (loop_result W wsd base dev t0 t1 (data_type dev),
           mkState (loop_fs W wsd base dev date dp t0 t1 (data_type dev) (fs st))
                   (trace st ++ loop_events W wsd base dev date dp t0 t1 (data_type dev))
                   (ticks st))
      end
  end.
Proof.
  unfold _data_sampler_device, bind, lift.
  destruct (toEpoch W (date +:+ "_00:00:01")) as [e|t0]; [done |].
  destruct (toEpoch W (date +:+ "_23:59:59")) as [e|t1]; [done |].
  by rewrite for_each_sample_mtype.
Qed.

Lemma first_values_nonempty {V} (data : body V) :
  nonempty_values data -> exists values, first_values data = inr values.
Proof.
  induction 1 as [|[t vs] data Hvs _ [values IH]]; simpl; [by eexists |].
  destruct vs as [|v vs]; [done |]. rewrite IH. by eexists.
Qed.

Lemma first_values_empty {V} (data : body V) t :
  (t, []) ∈ data ->
  first_values data = inl (Exn IndexError "list index out of range").
Proof.
  induction data as [|[t' vs] data IH]; [set_solver |].
  intros Hin. simpl. destruct vs as [|v vs]; [done |].
  apply elem_of_cons in Hin as [[=]|Hin]. by rewrite IH.
Qed.

Lemma metric_csv_responds {V} (W : World V) wsd base dev tstart tend (ms : list string) :
  (forall m, m ∈ ms ->
     exists data, getMeasure wsd (Request base (_id dev) "max" m tstart tend) = inr data
                  /\ nonempty_values data) ->
  Forall (fun m => is_Some (match metric_csv W wsd base dev tstart tend m with
                            | inr c => Some c
                            | inl _ => None
                            end)) ms.
Proof.
  intros H. apply Forall_forall. intros m Hm.
  destruct (H m Hm) as (data & Hd & Hne).
  unfold metric_csv, metric_request. rewrite Hd.
  destruct (first_values_nonempty data Hne) as [values ->]. by eexists.
Qed.

(** ** Calendar facts *)

Module CalendarFacts.
Import PyDatetime.
Local Open Scope Z_scope.

Ltac zbool :=
  repeat match goal with
  | H : (_ && _)%bool = true |- _ => apply andb_true_iff in H as [? ?]
  | H : (_ <=? _) = true |- _ => apply Z.leb_le in H
  | H : (_ <? _) = true |- _ => apply Z.ltb_lt in H
  | H : (_ =? _) = true |- _ => apply Z.eqb_eq in H
  | H : (_ <=? _) = false |- _ => apply Z.leb_gt in H
  | H : (_ <? _) = false |- _ => apply Z.ltb_ge in H
  | H : (_ =? _) = false |- _ => apply Z.eqb_neq in H
  end.

Ltac digit_ranges lem :=
  repeat match goal with
         | H : digit_val _ = Some _ |- _ => apply lem in H
         end.

Lemma mk_timedelta_small d s us :
  0 <= s < 86400 -> 0 <= us < 1000000 -> mk_timedelta d s us = mkTimedelta d s us.
Proof.
  intros Hs Hus. unfold mk_timedelta.
  rewrite (Z.div_small us), (Z.mod_small us), Z.add_0_r by lia.
  by rewrite (Z.div_small s), (Z.mod_small s), Z.add_0_r by lia.
Qed.

Lemma seconds_of_day_range d : valid_datetime d -> 0 <= seconds_of_day d < 86400.
Proof. unfold valid_datetime, seconds_of_day. lia. Qed.

Lemma _days_before_year_range y :
  1 <= y <= 9999 ->
  0 <= _days_before_year y /\
  _days_before_year y + 365 + (if _is_leap y then 1 else 0) <= _MAXORDINAL.
Proof.
  intros Hy. unfold _days_before_year, _is_leap, _MAXORDINAL.
  destruct (y mod 4 =? 0) eqn:H4; destruct (y mod 100 =? 0) eqn:H100;
    destruct (y mod 400 =? 0) eqn:H400; simpl; zbool;
    Z.div_mod_to_equations; lia.
Qed.

Lemma _days_before_month_range y m d :
  1 <= m <= 12 -> 1 <= d <= _days_in_month y m ->
  1 <= _days_before_month y m + d <= 365 + (if _is_leap y then 1 else 0).
Proof.
  intros Hm. unfold _days_before_month, _days_in_month.
  assert (m = 1 \/ m = 2 \/ m = 3 \/ m = 4 \/ m = 5 \/ m = 6 \/ m = 7 \/ m = 8
          \/ m = 9 \/ m = 10 \/ m = 11 \/ m = 12) as Hcases by lia.
  destruct (_is_leap y);
    repeat (destruct Hcases as [->|Hcases]); try subst m; simpl; lia.
Qed.

(** A valid datetime has an ordinal between 1 and [_MAXORDINAL]. *)
Lemma toordinal_range d : valid_datetime d -> 1 <= toordinal d <= _MAXORDINAL.
Proof.
  intros (Hy & Hm & Hd & _). unfold toordinal, _ymd2ord.
  pose proof (_days_before_year_range _ Hy).
  pose proof (_days_before_month_range _ _ _ Hm Hd). lia.
Qed.

Lemma digit_val_range c v : digit_val c = Some v -> 0 <= v <= 9.
Proof.
  unfold digit_val. case_match; [|done]. intros [= <-]. zbool. lia.
Qed.

Lemma match_Y_range cs y : match_Y cs = Some y -> 0 <= y <= 9999.
Proof.
  unfold match_Y. intros H. repeat case_match; simplify_eq.
  digit_ranges digit_val_range. lia.
Qed.

Lemma match_m_range cs m : match_m cs = Some m -> 1 <= m <= 12.
Proof.
  unfold match_m. intros H. repeat case_match; simplify_eq; zbool;
    digit_ranges digit_val_range; lia.
Qed.

Lemma match_d_range cs d : match_d cs = Some d -> 1 <= d.
Proof.
  unfold match_d. intros H. repeat case_match; simplify_eq; zbool;
    digit_ranges digit_val_range; lia.
Qed.

(** A parsed date is a valid datetime at midnight. *)
Lemma strptime_ymd_inr s d0 :
  strptime_ymd s = inr d0 ->
  valid_datetime d0 /\ seconds_of_day d0 = 0 /\ microsecond d0 = 0.
Proof.
  unfold strptime_ymd. intros H. repeat case_match; simplify_eq. zbool.
  repeat match goal with
         | H : match_Y _ = Some _ |- _ => apply match_Y_range in H
         | H : match_m _ = Some _ |- _ => apply match_m_range in H
         | H : match_d _ = Some _ |- _ => apply match_d_range in H
         end.
  unfold valid_datetime, seconds_of_day. simpl. lia.
Qed.

(** [(now - d0).days] for a date [d0] at midnight. *)
Lemma datetime_sub_days_midnight now d0 :
  valid_datetime now -> seconds_of_day d0 = 0 -> microsecond d0 = 0 ->
  days (datetime_sub now d0) = toordinal now - toordinal d0.
Proof.
  intros Hv Hs Hus. unfold datetime_sub. rewrite Hs, Hus, !Z.sub_0_r.
  rewrite mk_timedelta_small; [done | by apply seconds_of_day_range |].
  unfold valid_datetime in Hv. lia.
Qed.

(** [now - timedelta(days=n)] stays in range when the target day does. *)
Lemma datetime_sub_days_inr now n :
  valid_datetime now -> 0 < toordinal now - n ->  0 <= n ->
  exists d, datetime_sub_days now n = inr d
            /\ strftime_ymd d = day_string (toordinal now - n).
Proof.
  intros Hv Hpos Hn. unfold datetime_sub_days.
  rewrite mk_timedelta_small;
    [| by apply seconds_of_day_range | unfold valid_datetime in Hv; lia].
  simpl. pose proof (toordinal_range _ Hv).
  replace (0 <? toordinal now - n) with true by (symmetry; apply Z.ltb_lt; lia).
  replace (toordinal now - n <=? _MAXORDINAL) with true
    by (symmetry; apply Z.leb_le; lia).
  simpl. unfold day_string.
  destruct (_ord2ymd (toordinal now - n)) as [[y m] d]. by eexists.
Qed.

(** The month and day of the [n]-th day of a year, as [_ord2ymd] finds
    them. *)
Lemma month_of_day_of_year (leap : bool) m d :
  1 <= m <= 12 ->
  1 <= d <= (if (m =? 2) && leap then 29 else _DAYS_IN_MONTH m) ->
  let n := _DAYS_BEFORE_MONTH m + (if (2 <? m) && leap then 1 else 0) + d - 1 in
  let m' := Z.shiftr (n + 50) 5 in
  let preceding := _DAYS_BEFORE_MONTH m' + (if (2 <? m') && leap then 1 else 0) in
  (if n <? preceding then
     (m' - 1,
      n - (preceding - (_DAYS_IN_MONTH (m' - 1)
                        + (if (m' - 1 =? 2) && leap then 1 else 0))) + 1)
   else (m', n - preceding + 1)) = (m, d).
Proof.
  intros Hm Hd.
  assert (m = 1 \/ m = 2 \/ m = 3 \/ m = 4 \/ m = 5 \/ m = 6 \/ m = 7 \/ m = 8
          \/ m = 9 \/ m = 10 \/ m = 11 \/ m = 12) as Hcases by lia.
  assert (Hd31 : d = 1 \/ d = 2 \/ d = 3 \/ d = 4 \/ d = 5 \/ d = 6 \/ d = 7 \/ d = 8
          \/ d = 9 \/ d = 10 \/ d = 11 \/ d = 12 \/ d = 13 \/ d = 14 \/ d = 15
          \/ d = 16 \/ d = 17 \/ d = 18 \/ d = 19 \/ d = 20 \/ d = 21 \/ d = 22
          \/ d = 23 \/ d = 24 \/ d = 25 \/ d = 26 \/ d = 27 \/ d = 28 \/ d = 29
          \/ d = 30 \/ d = 31).
  { destruct leap; repeat (destruct Hcases as [->|Hcases]); try subst m; simpl in Hd; lia. }
  destruct leap;
    repeat (destruct Hcases as [->|Hcases]); try subst m; simpl in Hd;
    repeat (destruct Hd31 as [->|Hd31]); try subst d; try lia; reflexivity.
Qed.

(** The year and the day of the year of an ordinal, as [_ord2ymd] finds
    them; on 31 December of a leap year the quotient by 365 (or by 36524)
    is 4. *)
Lemma year_of_ordinal y doy :
  1 <= y -> 0 <= doy < 365 + (if _is_leap y then 1 else 0) ->
  let n0 := _days_before_year y + doy in
  let n400 := n0 / 146097 in
  let r400 := n0 mod 146097 in
  let n100 := r400 / 36524 in
  let r100 := r400 mod 36524 in
  let n4 := r100 / 1461 in
  let r4 := r100 mod 1461 in
  let n1 := r4 / 365 in
  let r1 := r4 mod 365 in
  let y' := n400 * 400 + 1 + n100 * 100 + n4 * 4 + n1 in
  if (n1 =? 4) || (n100 =? 4)
  then doy = 365 /\ y' - 1 = y
  else y' = y /\ r1 = doy /\
       (n1 =? 3) && (negb (n4 =? 24) || (n100 =? 3)) = _is_leap y.
Proof.
  intros Hy Hdoy. unfold _days_before_year, _is_leap in *.
  cbv zeta.
  set (a := (y - 1) / 400).
  set (b := (y - 1) mod 400 / 100).
  set (c := (y - 1) mod 100 / 4).
  set (e := (y - 1) mod 4).
  assert (Hdec : y - 1 = 400 * a + 100 * b + 4 * c + e /\ 0 <= b <= 3 /\ 0 <= c <= 24
                 /\ 0 <= e <= 3 /\ 0 <= a).
  { subst a b c e. Z.div_mod_to_equations. lia. }
  assert (Hq : (y - 1) / 4 = 100 * a + 25 * b + c /\ (y - 1) / 100 = 4 * a + b).
  { subst a b c e. Z.div_mod_to_equations. lia. }
  assert (Hl : (y mod 4 =? 0) && (negb (y mod 100 =? 0) || (y mod 400 =? 0))
               = (e =? 3) && (negb (c =? 24) || (b =? 3))).
  { destruct Hdec as (Hd & Hb & Hc & He & Ha).
    assert (y mod 4 = (e + 1) mod 4) as -> by (Z.div_mod_to_equations; lia).
    assert (y mod 100 = (4 * c + e + 1) mod 100) as -> by (Z.div_mod_to_equations; lia).
    assert (y mod 400 = (100 * b + 4 * c + e + 1) mod 400) as ->
      by (Z.div_mod_to_equations; lia).
    clear Hd Hq Hdoy.
    destruct (e =? 3) eqn:E3; destruct (c =? 24) eqn:C24; destruct (b =? 3) eqn:B3;
      zbool; simpl;
      repeat match goal with
             | |- context [?x mod ?k =? 0] =>
                 let E := fresh in destruct (x mod k =? 0) eqn:E; zbool
             end; simpl; try reflexivity; exfalso; Z.div_mod_to_equations; lia. }
  rewrite Hl in Hdoy |- *.
  destruct Hdec as (Hd & Hb & Hc & He & Ha). destruct Hq as [Hq4 Hq100].
  rewrite Hq4, Hq100. fold a.
  replace ((y - 1) * 365 + (100 * a + 25 * b + c) - (4 * a + b) + a + doy)
    with (146097 * a + (36524 * b + 1461 * c + 365 * e + doy)) by lia.
  clearbody a b c e. clear Hq4 Hq100 Hl.
  assert (y = 400 * a + 100 * b + 4 * c + e + 1) as -> by lia. clear Hd Hy.
  assert (Hrest : 0 <= 36524 * b + 1461 * c + 365 * e + doy < 146097).
  { destruct (e =? 3) eqn:E3; destruct (c =? 24) eqn:C24; destruct (b =? 3) eqn:B3;
      zbool; simpl in Hdoy; lia. }
  assert (H400 : (146097 * a + (36524 * b + 1461 * c + 365 * e + doy)) / 146097 = a
                 /\ (146097 * a + (36524 * b + 1461 * c + 365 * e + doy)) mod 146097
                    = 36524 * b + 1461 * c + 365 * e + doy).
  { Z.div_mod_to_equations. lia. }
  destruct H400 as [-> ->].
  destruct (Z.eq_dec (1461 * c + 365 * e + doy) 36524) as [Hlast|Hlast].
  - (* 31 December of a year divisible by 400 *)
    assert (b = 3 /\ c = 24 /\ e = 3 /\ doy = 365) as (-> & -> & -> & ->).
    { destruct (e =? 3) eqn:E3; destruct (c =? 24) eqn:C24; destruct (b =? 3) eqn:B3;
        zbool; simpl in Hdoy; lia. }
    change ((36524 * 3 + 1461 * 24 + 365 * 3 + 365) / 36524) with 4.
    change ((36524 * 3 + 1461 * 24 + 365 * 3 + 365) mod 36524) with 0.
    change (0 mod 1461) with 0. change (0 / 1461) with 0.
    change (0 mod 365) with 0. change (0 / 365) with 0.
    cbn [Z.eqb orb]. split; [done | lia].
  - assert (H100 : (36524 * b + 1461 * c + 365 * e + doy) / 36524 = b
                   /\ (36524 * b + 1461 * c + 365 * e + doy) mod 36524
                      = 1461 * c + 365 * e + doy).
    { assert (0 <= 1461 * c + 365 * e + doy < 36524).
      { destruct (e =? 3) eqn:E3; destruct (c =? 24) eqn:C24; destruct (b =? 3) eqn:B3;
          zbool; simpl in Hdoy; lia. }
      Z.div_mod_to_equations. lia. }
    destruct H100 as [-> ->].
    assert (H4 : (1461 * c + 365 * e + doy) / 1461 = c
                 /\ (1461 * c + 365 * e + doy) mod 1461 = 365 * e + doy).
    { assert (0 <= 365 * e + doy < 1461).
      { destruct (e =? 3) eqn:E3; destruct (c =? 24) eqn:C24; destruct (b =? 3) eqn:B3;
          zbool; simpl in Hdoy; lia. }
      Z.div_mod_to_equations. lia. }
    destruct H4 as [-> ->].
    replace (b =? 4) with false by (symmetry; apply Z.eqb_neq; lia).
    rewrite orb_false_r.
    destruct (Z.eq_dec doy 365) as [->|Hd365].
    + (* 31 December of a leap year *)
      assert (e = 3) as ->.
      { destruct (e =? 3) eqn:E3; zbool; [done | simpl in Hdoy; lia]. }
      change ((365 * 3 + 365) / 365) with 4. cbn [Z.eqb Pos.eqb orb].
      split; [done | lia].
    + assert (H1 : (365 * e + doy) / 365 = e /\ (365 * e + doy) mod 365 = doy).
      { assert (0 <= doy < 365).
        { destruct ((e =? 3) && (negb (c =? 24) || (b =? 3))); lia. }
        Z.div_mod_to_equations. lia. }
      destruct H1 as [-> ->].
      replace (e =? 4) with false by (symmetry; apply Z.eqb_neq; lia).
      split_and!; [lia | done | done].
Qed.

(** [date.fromordinal] inverts [date.toordinal]. *)
Lemma _ord2ymd_ymd2ord y m d :
  1 <= y -> 1 <= m <= 12 -> 1 <= d <= _days_in_month y m ->
  _ord2ymd (_ymd2ord y m d) = (y, m, d).
Proof.
  intros Hy Hm Hd.
  pose proof (_days_before_month_range y m d Hm Hd) as Hdoy.
  set (doy := _days_before_month y m + d - 1).
  assert (Hrange : 0 <= doy < 365 + (if _is_leap y then 1 else 0)) by (subst doy; lia).
  pose proof (year_of_ordinal y doy Hy Hrange) as Hyear. cbv zeta in Hyear.
  unfold _ord2ymd, _ymd2ord, _DI400Y, _DI100Y, _DI4Y.
  replace (_days_before_year y + _days_before_month y m + d - 1)
    with (_days_before_year y + doy) by (subst doy; lia).
  cbv zeta.
  destruct (_ || _).
  - destruct Hyear as [H365 ->].
    assert (m = 12 /\ d = 31) as [-> ->]; [|done].
    subst doy. unfold _days_before_month, _days_in_month in *.
    assert (m = 1 \/ m = 2 \/ m = 3 \/ m = 4 \/ m = 5 \/ m = 6 \/ m = 7 \/ m = 8
            \/ m = 9 \/ m = 10 \/ m = 11 \/ m = 12) as Hcases by lia.
    destruct (_is_leap y);
      repeat (destruct Hcases as [->|Hcases]); try subst m; simpl in *; lia.
  - destruct Hyear as (-> & -> & ->).
    pose proof (month_of_day_of_year (_is_leap y) m d Hm Hd) as Hmonth.
    cbv zeta in Hmonth. fold (_days_before_month y m) in Hmonth. fold doy in Hmonth.
    destruct (doy <? _) ; by injection Hmonth as -> ->.
Qed.

Lemma day_string_toordinal d :
  valid_datetime d -> day_string (toordinal d) = strftime_ymd d.
Proof.
  intros (Hy & Hm & Hd & _). unfold day_string, toordinal.
  rewrite _ord2ymd_ymd2ord by lia. done.
Qed.

Lemma digit_char_val c v : digit_val c = Some v -> digit_char v = c.
Proof.
  unfold digit_val. case_match; [|done]. intros [= <-]. zbool.
  unfold digit_char. rewrite Z.mod_small by lia.
  replace (48 + Z.to_nat (Z.of_nat (nat_of_ascii c) - 48))%nat
    with (nat_of_ascii c) by lia.
  apply ascii_nat_embedding.
Qed.

Lemma digit_not_dash c v : digit_val c = Some v -> Ascii.eqb c "-" = false.
Proof.
  intros H. apply Ascii.eqb_neq. intros ->. by vm_compute in H.
Qed.

Lemma digit_char_mod x v : x mod 10 = v mod 10 -> digit_char x = digit_char v.
Proof. unfold digit_char. by intros ->. Qed.

Lemma pad2_digits c1 c2 v1 v2 :
  digit_val c1 = Some v1 -> digit_val c2 = Some v2 ->
  pad2 (10 * v1 + v2) = String c1 (String c2 EmptyString).
Proof.
  intros H1 H2. pose proof (digit_val_range _ _ H1). pose proof (digit_val_range _ _ H2).
  unfold pad2.
  rewrite <- (digit_char_val _ _ H1), <- (digit_char_val _ _ H2).
  f_equal; [|f_equal]; apply digit_char_mod; Z.div_mod_to_equations; lia.
Qed.

Lemma pad4_digits c1 c2 c3 c4 v1 v2 v3 v4 :
  digit_val c1 = Some v1 -> digit_val c2 = Some v2 ->
  digit_val c3 = Some v3 -> digit_val c4 = Some v4 ->
  pad4 (1000 * v1 + 100 * v2 + 10 * v3 + v4)
  = String c1 (String c2 (String c3 (String c4 EmptyString))).
Proof.
  intros H1 H2 H3 H4.
  pose proof (digit_val_range _ _ H1). pose proof (digit_val_range _ _ H2).
  pose proof (digit_val_range _ _ H3). pose proof (digit_val_range _ _ H4).
  unfold pad4, pad2.
  rewrite <- (digit_char_val _ _ H1), <- (digit_char_val _ _ H2),
    <- (digit_char_val _ _ H3), <- (digit_char_val _ _ H4).
  f_equal; [|f_equal; [|f_equal; [|f_equal]]];
    apply digit_char_mod; Z.div_mod_to_equations; lia.
Qed.

Lemma match_m_two c1 c2 v1 v2 m :
  digit_val c1 = Some v1 -> digit_val c2 = Some v2 ->
  match_m [c1; c2] = Some m -> m = 10 * v1 + v2.
Proof.
  intros H1 H2. unfold match_m. rewrite H1, H2.
  intros H. repeat case_match; simplify_eq; lia.
Qed.

Lemma match_d_two c1 c2 v1 v2 d :
  digit_val c1 = Some v1 -> digit_val c2 = Some v2 ->
  match_d [c1; c2] = Some d -> d = 10 * v1 + v2.
Proof.
  intros H1 H2. unfold match_d. rewrite H1, H2.
  intros H. repeat case_match; simplify_eq; lia.
Qed.

(** Printing a parsed date written with four, two and two digits gives the
    text back. *)
Lemma strftime_strptime s d0 :
  canonical_ymd s -> strptime_ymd s = inr d0 -> strftime_ymd d0 = s.
Proof.
  intros (y1 & y2 & y3 & y4 & m1 & m2 & d1 & d2 & -> & Hdig).
  repeat match goal with
         | H : Forall _ (_ :: _) |- _ => apply Forall_cons in H as [[? ?] H]
         end.
  unfold strptime_ymd. cbn [list_ascii_of_string split_dash].
  repeat match goal with
         | H : digit_val ?c = Some _ |- context [Ascii.eqb ?c "-"] =>
             rewrite (digit_not_dash _ _ H)
         end.
  change (Ascii.eqb "-" "-") with true. cbn [split_dash].
  repeat match goal with
         | H : digit_val ?c = Some _ |- context [Ascii.eqb ?c "-"] =>
             rewrite (digit_not_dash _ _ H)
         end.
  change (Ascii.eqb "-" "-") with true. cbv iota beta.
  unfold match_Y.
  repeat match goal with
         | H : digit_val ?c = Some _ |- context [digit_val ?c] => rewrite H
         end.
  destruct (match_m [m1; m2]) as [m|] eqn:Em; [|done].
  destruct (match_d [d1; d2]) as [d|] eqn:Ed; [|done].
  eapply match_m_two in Em; [|done..]. eapply match_d_two in Ed; [|done..].
  subst m d. case_match; [|done]. intros [= <-].
  unfold strftime_ymd. cbn [year month day].
  erewrite pad4_digits, !pad2_digits by done. reflexivity.
Qed.

End CalendarFacts.

(** ** Session initializer and station walker *)

Section WalkerLemmas.
Context {V : Type} (W : World V).

Lemma _init_wsd_run auth (st : State V) :
  _init_wsd W auth st =
  (fst (init_plan W auth),
   mkState (fs st) (trace st ++ snd (init_plan W auth)) (ticks st)).
Proof.
  unfold _init_wsd, init_plan, connect, bind, try_except, emit, lift, raise, ret.
  destruct (not_dict auth); simpl.
  - destruct (config_file W) as [e|d]; simpl.
    + by case_bool_decide.
    + destruct (ClientAuth W d) as [e|a]; simpl; [by rewrite <- app_assoc |].
      destruct (WeatherStationData W a); simpl; by rewrite <- !app_assoc.
  - destruct (ClientAuth W _) as [e|a]; simpl; [done |].
    destruct (WeatherStationData W a); simpl; by rewrite <- !app_assoc.
Qed.

Lemma init_plan_quiet auth :
  requests (snd (init_plan W auth)) = [] /\
  written (snd (init_plan W auth)) = [] /\
  walks (snd (init_plan W auth)) = [].
Proof.
  unfold init_plan, connect.
  destruct (not_dict auth); [destruct (config_file W) |];
    try destruct (ClientAuth W _); done.
Qed.

(** Both calls in the body of the station loop pass four arguments. *)
Lemma sample_station_run wsd date station (st : State V) :
  sample_station W wsd date station st = (inl (arity_error W), st).
Proof. reflexivity. Qed.

Lemma stations_loop_run wsd date l (st : State V) :
  for_each l (sample_station W wsd date) st =
  (match l with [] => inr tt | _ :: _ => inl (arity_error W) end, st).
Proof. by destruct l. Qed.

Lemma date_or_yesterday_quiet date (st : State V) :
  fs (snd (date_or_yesterday W date st)) = fs st /\
  trace (snd (date_or_yesterday W date st)) = trace st.
Proof.
  unfold date_or_yesterday, yesterday, bind, datetime_now, lift, ret.
  destruct (not_str date); simpl; [|done].
  by destruct (PyDatetime.datetime_sub_days _ _).
Qed.

Lemma wsd_or_init_quiet wsd (st : State V) :
  fs (snd (wsd_or_init W wsd st)) = fs st /\
  exists evs, trace (snd (wsd_or_init W wsd st)) = (trace st ++ evs)%list
              /\ requests evs = [] /\ written evs = [] /\ walks evs = [].
Proof.
  destruct wsd as [w|]; simpl.
  - split; [done |]. exists []. by rewrite app_nil_r.
  - rewrite _init_wsd_run. simpl. split; [done |].
    eexists. split; [done |]. apply init_plan_quiet.
Qed.

Lemma wsd_or_init_indep wsd (sta stb : State V) :
  ticks sta = ticks stb ->
  fst (wsd_or_init W wsd sta) = fst (wsd_or_init W wsd stb) /\
  ticks (snd (wsd_or_init W wsd sta)) = ticks (snd (wsd_or_init W wsd stb)).
Proof.
  intros Ht. destruct wsd as [w|]; simpl; [done |]. by rewrite !_init_wsd_run.
Qed.

Lemma date_or_yesterday_indep date (sta stb : State V) :
  ticks sta = ticks stb ->
  fst (date_or_yesterday W date sta) = fst (date_or_yesterday W date stb) /\
  ticks (snd (date_or_yesterday W date sta)) = ticks (snd (date_or_yesterday W date stb)).
Proof.
  intros Ht. unfold date_or_yesterday, yesterday, bind, datetime_now, lift, ret.
  destruct (not_str date); simpl; [|done]. rewrite Ht.
  by destruct (PyDatetime.datetime_sub_days _ _).
Qed.

(** The station walker, step by step. *)
Lemma data_sampler_stations_run wsd date dp_save (st : State V) :
  data_sampler_stations W wsd date dp_save st =
  match wsd_or_init W wsd (snd (emit (EvStationWalk wsd date dp_save) st)) with
  | (inl e, st1) => (inl e, st1)
  | (inr w, st1) =>
      match date_or_yesterday W date st1 with
      | (inl e, st2) => (inl e, st2)
      | (inr d, st2) =>
          (match stations w with [] => inr tt | _ :: _ => inl (arity_error W) end, st2)
      end
  end.
Proof.
  unfold data_sampler_stations, data_sampler_stations_with, bind. simpl.
  destruct (wsd_or_init W wsd _) as [[e|w] st1]; [done |].
  destruct (date_or_yesterday W date st1) as [[e|d] st2]; [done |].
  change (sample_station_with (_data_sampler_device_fn W)) with (sample_station W).
  rewrite stations_loop_run. by destruct (stations w).
Qed.

(** The outcome of the station walker does not depend on [dp_save]. *)
Lemma data_sampler_stations_ignores_dp_save wsd date dp_save dp_save' (st : State V) :
  fst (data_sampler_stations W wsd date dp_save' st)
  = fst (data_sampler_stations W wsd date dp_save st).
Proof.
  rewrite !data_sampler_stations_run.
  set (sta := snd (emit (EvStationWalk wsd date dp_save') st)).
  set (stb := snd (emit (EvStationWalk wsd date dp_save) st)).
  destruct (wsd_or_init_indep wsd sta stb) as [Hr Ht]; [done |].
  destruct (wsd_or_init W wsd sta) as [ra sta1], (wsd_or_init W wsd stb) as [rb stb1].
  simpl in Hr, Ht. subst rb. destruct ra as [e|w]; [done |].
  destruct (date_or_yesterday_indep date sta1 stb1 Ht) as [Hr' _].
  destruct (date_or_yesterday W date sta1) as [ra sta2],
           (date_or_yesterday W date stb1) as [rb stb2].
  simpl in Hr'. subst rb. by destruct ra.
Qed.

(** An invocation of the station walker leaves the files alone and adds
    one station-walk event, no request and no write. *)
Lemma data_sampler_stations_quiet wsd date dp_save (st : State V) :
  let st' := snd (data_sampler_stations W wsd date dp_save st) in
  fs st' = fs st /\
  exists evs, trace st' = (trace st ++ EvStationWalk wsd date dp_save :: evs)%list
              /\ requests evs = [] /\ written evs = [] /\ walks evs = [].
Proof.
  simpl. rewrite data_sampler_stations_run.
  set (st0 := snd (emit _ st)).
  destruct (wsd_or_init_quiet wsd st0) as (Hfs & evs & Htr & Hq).
  destruct (wsd_or_init W wsd st0) as [r st1]. simpl in Hfs, Htr.
  assert (fs st1 = fs st /\
          trace st1 = (trace st ++ EvStationWalk wsd date dp_save :: evs)%list)
    as [Hfs1 Htr1].
  { split; [by rewrite Hfs |]. rewrite Htr. subst st0. simpl.
    by rewrite <- app_assoc. }
  destruct r as [e|w]; simpl; [by eauto |].
  destruct (date_or_yesterday_quiet date st1) as [Hfs2 Htr2].
  destruct (date_or_yesterday W date st1) as [[e|d] st2]; simpl in *;
    (split; [congruence |]); exists evs; (split; [congruence | done]).
Qed.

End WalkerLemmas.

(** ** The station loop with a function of four parameters *)

Lemma added_app {V} (st st' : State V) evs :
  trace st' = (trace st ++ evs)%list -> added st st' = evs.
Proof. intros H. unfold added. rewrite H. apply drop_app_length. Qed.

Lemma added_run {V} (st : State V) files evs t :
  added st (mkState files (trace st ++ evs) t) = evs.
Proof. by apply added_app. Qed.

Lemma requests_added_weaken {V} (m : M V unit) (st : State V)
    (P P' : request -> Prop) (O O' : (request -> Prop) -> Prop) :
  (forall rq, P rq -> P' rq) -> (forall o, O' o -> O o) ->
  requests_added m st P O -> requests_added m st P' O'.
Proof.
  intros HP HO (evs & Htr & Hall & Hmet). exists evs.
  split_and!; [done | auto | auto].
Qed.

(** A loop adds what its iterations add. *)
Lemma for_each_requests_added {V A} (f : A -> M V unit)
    (P : A -> request -> Prop) (O : A -> (request -> Prop) -> Prop)
    (l : list A) (st : State V) :
  (forall x st', x ∈ l -> requests_added (f x) st' (P x) (O x)) ->
  requests_added (for_each l f) st
    (fun rq => exists x, x ∈ l /\ P x rq)
    (fun o => exists x, x ∈ l /\ O x o).
Proof.
  revert st. induction l as [|x l IH]; intros st Hf.
  - exists []. cbn [for_each ret fst snd]. rewrite app_nil_r.
    split_and!; [done | |].
    + intros rq Hrq. by apply elem_of_nil in Hrq.
    + intros _ o (x & Hx & _). by apply elem_of_nil in Hx.
  - destruct (Hf x st) as (evs & Htr & HP & HO); [by left |].
    unfold requests_added. cbn [for_each]. unfold bind.
    destruct (f x st) as [[e|[]] st1]; cbn [fst snd] in *.
    + exists evs. split_and!; [done | | done].
      intros rq Hrq. exists x. split; [by left | auto].
    + destruct (IH st1) as (evs' & Htr' & HP' & HO').
      { intros y st' Hy. apply Hf. by right. }
      exists (evs ++ evs')%list. split_and!.
      * by rewrite Htr', Htr, app_assoc.
      * intros rq. rewrite requests_app. intros [Hrq|Hrq]%elem_of_app.
        -- exists x. split; [by left | auto].
        -- destruct (HP' rq Hrq) as (y & Hy & Hp). exists y. split; [by right | done].
      * intros Hok o (y & Hy & Ho). apply elem_of_cons in Hy as [->|Hy].
        -- destruct (HO eq_refl o Ho) as (rq & Hrq & Hmet). exists rq.
           split; [|done]. rewrite requests_app, elem_of_app. by left.
        -- destruct (HO' Hok o) as (rq & Hrq & Hmet); [by exists y |]. exists rq.
           split; [|done]. rewrite requests_app, elem_of_app. by right.
Qed.

Section StationLoop.
Context {V : Type} (W : World V) (wsd : WSD V) (date dp : string).

(** A metric loop that returns normally has made the request of each of
    its metrics. *)
Lemma loop_result_requests base dev t0 t1 ms m :
  loop_result W wsd base dev t0 t1 ms = inr tt -> m ∈ ms ->
  metric_request base dev t0 t1 m
    ∈ requests (loop_events W wsd base dev date dp t0 t1 ms).
Proof.
  induction ms as [|m' ms IH]; cbn [loop_result loop_events].
  - intros _ Hm. by apply elem_of_nil in Hm.
  - destruct (metric_csv W wsd base dev t0 t1 m') as [e|c]; [done |].
    change (requests (EvGetMeasure ?r :: EvWrite ?p ?c :: ?l)) with (r :: requests l).
    intros Hres [->|Hin]%elem_of_cons.
    + apply list_elem_of_here.
    + apply list_elem_of_further. auto.
Qed.

(** The requests of the device sampler: all for [base] and the device,
    and one for each metric when it returns normally. *)
Lemma _data_sampler_device_requests_added base dev (st : State V) :
  requests_added (_data_sampler_device W wsd base dev date dp) st
    (fun rq => device_id rq = base /\ module_id rq = _id dev)
    (fun o => exists m, m ∈ data_type dev /\
                o = fun rq => device_id rq = base /\ module_id rq = _id dev
                              /\ mtype rq = m).
Proof.
  unfold requests_added. rewrite _data_sampler_device_run.
  destruct (toEpoch W (date +:+ "_00:00:01")) as [e|t0].
  { exists []. cbn [fst snd]. rewrite app_nil_r.
    split_and!; [done | intros rq Hrq; by apply elem_of_nil in Hrq | done]. }
  destruct (toEpoch W (date +:+ "_23:59:59")) as [e|t1].
  { exists []. cbn [fst snd]. rewrite app_nil_r.
    split_and!; [done | intros rq Hrq; by apply elem_of_nil in Hrq | done]. }
  eexists. cbn [fst snd trace]. split_and!; [done | apply loop_events_requests |].
  intros Hres o (m & Hm & ->). exists (metric_request base dev t0 t1 m).
  split; [by apply loop_result_requests | done].
Qed.

(** Bound to a function of four parameters that hands them to the device
    sampler, the calls of the station loop are calls of the device sampler
    with the identifier of the station as [base], for the station and for
    each of its modules. *)
Lemma sample_station_with_sampler_into station :
  sample_station_with (sampler_into W dp) wsd date station
  = for_each (station :: modules station)
             (fun device => _data_sampler_device W wsd (_id station) device date dp).
Proof. reflexivity. Qed.

Lemma sample_station_requests_added station (st : State V) :
  requests_added (sample_station_with (sampler_into W dp) wsd date station) st
    (fun rq => device_id rq = _id station /\
               (module_id rq = _id station \/
                exists module, module ∈ modules station /\ module_id rq = _id module))
    (fun o => exists module m, module ∈ modules station /\ m ∈ data_type module /\
                o = fun rq => device_id rq = _id station /\ module_id rq = _id module
                              /\ mtype rq = m).
Proof.
  rewrite sample_station_with_sampler_into.
  eapply requests_added_weaken;
    [| | apply for_each_requests_added; intros device st' _;
         apply _data_sampler_device_requests_added].
  - intros rq (device & Hd & Hb & Hm). split; [done |].
    apply elem_of_cons in Hd as [->|Hd]; [by left | right; by exists device].
  - intros o (module & m & Hmod & Hm & ->). exists module.
    split; [by right |]. by exists m.
Qed.

End StationLoop.

(** Whatever function the name is bound to, the calls of the station loop
    are those of [station_calls]. *)
Lemma sample_station_with_calls {V} (callee : pyfun V) wsd date station (st : State V) :
  sample_station_with callee wsd date station st
  = for_each (station_calls wsd date station) (py_call callee) st.
Proof.
  unfold sample_station_with, station_calls. cbn [for_each]. unfold bind.
  destruct (py_call callee _ st) as [[e|[]] st1]; [done |].
  generalize (modules station) st1. clear. intros l.
  induction l as [|m l IH]; intros st1; [done |].
  cbn [for_each map]. unfold bind.
  destruct (py_call callee _ st1) as [[e|[]] st2]; [done | apply IH].
Qed.

(** ** Period walker *)

Lemma period_walks_length {V} (w : WSD V) dp first n :
  length (period_walks w dp first n) = n.
Proof. revert first. induction n; intros; simpl; [done | by rewrite IHn]. Qed.

Lemma period_walks_elem {V} (w : WSD V) dp first n x :
  x ∈ period_walks w dp first n ->
  exists o, (first <= o < first + Z.of_nat n)%Z
            /\ x = (Some w, Some (day_string o), Some dp).
Proof.
  revert first. induction n as [|n IH]; intros first; simpl; [set_solver |].
  intros [->|Hin]%elem_of_cons.
  - exists first. split; [lia | done].
  - destruct (IH _ Hin) as (o & ? & ->). exists o. split; [lia | done].
Qed.

Section PeriodLemmas.
Import CalendarFacts.
Context {V : Type} (W : World V) (w : WSD V) (dp : string) (today : Z).
Hypothesis Hclock :
  forall k, PyDatetime.valid_datetime (clock W k)
            /\ PyDatetime.toordinal (clock W k) = today.

(** One iteration of the loop. *)
Lemma period_loop_S n (st : State V) d :
  PyDatetime.datetime_sub_days (clock W (ticks st)) (Z.of_nat (S n)) = inr d ->
  period_loop W w dp (S n) st =
  match data_sampler_stations W (Some w) (Some (PyDatetime.strftime_ymd d)) (Some dp)
          (mkState (fs st) (trace st ++ [EvPrint (PyDatetime.strftime_ymd d)])
                   (S (ticks st))) with
  | (inr _, st_c) => period_loop W w dp n st_c
  | (inl e, st_c) => (inl e, st_c)
  end.
Proof.
  intros Hd. cbn [period_loop].
  unfold bind, datetime_now, lift, print, emit. cbn [fst snd]. rewrite Hd.
  cbn [fs trace ticks].
  by destruct (data_sampler_stations W _ _ _ _) as [[e|[]] st_c].
Qed.

(** With [n] iterations left the loop invokes the walker for the days
    [today - n], ..., [today - 1], in this order, until an invocation
    raises. *)
Lemma period_loop_walks n (st : State V) :
  (Z.of_nat n < today)%Z ->
  let r := period_loop W w dp n st in
  fs (snd r) = fs st /\
  (exists k, k <= n /\
     walks (trace (snd r)) =
       (walks (trace st) ++ take k (period_walks w dp (today - Z.of_nat n) n))%list /\
     (fst r = inr tt -> k = n)) /\
  ((forall sday st',
      fst (data_sampler_stations W (Some w) (Some sday) (Some dp) st') = inr tt) ->
   fst r = inr tt).
Proof.
  revert st. induction n as [|n IH]; intros st Hn r; subst r.
  - simpl. split_and!; [done | | done]. exists 0. by rewrite app_nil_r.
  - destruct (Hclock (ticks st)) as [Hv Ho].
    destruct (datetime_sub_days_inr (clock W (ticks st)) (Z.of_nat (S n)))
      as (d & Hd & Hs); [done | lia | lia |].
    rewrite Ho in Hs. rewrite (period_loop_S _ _ _ Hd).
    set (st_b := mkState _ _ _).
    destruct (data_sampler_stations_quiet W (Some w)
                (Some (PyDatetime.strftime_ymd d)) (Some dp) st_b)
      as (Hfs & evs & Htr & _ & _ & Hw).
    assert (Hwalk : forall st_c,
              trace st_c =
                (trace st_b ++ EvStationWalk (Some w)
                   (Some (PyDatetime.strftime_ymd d)) (Some dp) :: evs)%list ->
              walks (trace st_c) =
                (walks (trace st)
                   ++ [(Some w, Some (day_string (today - Z.of_nat (S n))), Some dp)])%list).
    { intros st_c ->. subst st_b. simpl.
      rewrite !walks_app. simpl. by rewrite Hw, Hs, app_nil_r. }
    destruct (data_sampler_stations W (Some w) _ (Some dp) st_b)
      as [[e|[]] st_c] eqn:Hcall; simpl in Hfs, Htr.
    + split_and!; [done | | ].
      * exists 1. split_and!; [lia | | done]. simpl. rewrite take_0. by apply Hwalk.
      * intros Hall. specialize (Hall (PyDatetime.strftime_ymd d) st_b).
        by rewrite Hcall in Hall.
    + destruct (IH st_c) as (Hfs' & (k & Hk & Hwk & Hall) & Hok); [lia |].
      split_and!; [by rewrite Hfs' | | done].
      exists (S k). split_and!; [lia | | intros ?; f_equal; auto].
      rewrite Hwk, (Hwalk _ Htr). simpl. rewrite <- app_assoc. simpl.
      do 4 f_equal; lia.
Qed.

End PeriodLemmas.

(** * The claims *)

(** C1 (the code departs from the claim): the scenario of the claim, run
    on the code.  With the station listing {S1: Outdoor/Temperature with
    module M1: Rain/Rain} and the date 2024-03-01 the station walker raises
    a [TypeError] at its first call of [_data_sampler_device]: no file
    exists afterwards, in particular neither of the two expected ones, and
    no measurement was requested. *)
Theorem C1_scenario_raises_TypeError :
  let r := data_sampler_stations (Fixture.world Fixture.wsd1) (Some Fixture.wsd1)
             (Some "2024-03-01") None Fixture.st0 in
  fst r = inl (Exn TypeError
    "_data_sampler_device() missing 1 required positional argument: 'dp'") /\
  fs (snd r) = ∅ /\
  fs (snd r) !! "/app/data/2024-03-01_Outdoor_Temperature.csv" = None /\
  fs (snd r) !! "/app/data/2024-03-01_Rain_Rain.csv" = None /\
  requests (trace (snd r)) = [] /\
  written (trace (snd r)) = [].
Proof. vm_compute. by split_and!. Qed.

(** C2 (the code departs from the claim): whatever the arguments, the
    station walker writes no file at all, so none under [dp_save] or under
    the default directory, and its outcome does not depend on [dp_save]:
    the directory it computes is never passed on. *)
Theorem C2_dp_save_never_used {V} (W : World V) wsd date dp_save (st : State V) :
  let r := data_sampler_stations W wsd date dp_save st in
  fs (snd r) = fs st /\
  (exists evs, trace (snd r) = (trace st ++ evs)%list /\ written evs = []) /\
  (forall dp_save', fst (data_sampler_stations W wsd date dp_save' st) = fst r).
Proof.
  intros r. subst r.
  destruct (data_sampler_stations_quiet W wsd date dp_save st)
    as (Hfs & evs & Htr & _ & Hwr & _).
  split_and!; [done | by eexists |].
  intros dp_save'. apply data_sampler_stations_ignores_dp_save.
Qed.

(** C3 (the code departs from the claim): the period walker run on
    4 March 2024 with the start date 2024-03-01, the credentials file in
    place and the account of the station "S1".  The date is valid and three
    days before the day of the clock, the session is obtained, and the
    station walker is invoked once, for 2024-03-01: that invocation raises
    the [TypeError] of the four-argument call and ends the loop, so
    2024-03-02 and 2024-03-03 are neither printed nor walked.  On the same
    machine with an account without stations, where no invocation raises,
    the three days are walked in order with the one handle. *)
Theorem C3_one_invocation_then_TypeError :
  let d0 := PyDatetime.mkDatetime 2024 3 1 0 0 0 0 in
  let r := data_sampler_stations_period (Fixture.world Fixture.wsd1) "2024-03-01" None
             Fixture.st0 in
  let r0 := data_sampler_stations_period (Fixture.world Fixture.wsd0) "2024-03-01" None
              Fixture.st0 in
  PyDatetime.strptime_ymd "2024-03-01" = inr d0 /\
  PyDatetime.days (PyDatetime.datetime_sub (clock (Fixture.world Fixture.wsd1) 0) d0)
    = 3%Z /\
  fst (_init_wsd (Fixture.world Fixture.wsd1) None Fixture.st0) = inr Fixture.wsd1 /\
  fst r = inl (Exn TypeError
    "_data_sampler_device() missing 1 required positional argument: 'dp'") /\
  walks (trace (snd r)) = [(Some Fixture.wsd1, Some "2024-03-01", Some "/app/data")] /\
  added Fixture.st0 (snd r) =
    [EvOpen "/app/authorization.json"; EvClientAuth Fixture.credentials;
     EvStationsData "token"; EvPrint "2024-03-01";
     EvStationWalk (Some Fixture.wsd1) (Some "2024-03-01") (Some "/app/data")] /\
  fs (snd r) = ∅ /\
  fst r0 = inr tt /\
  walks (trace (snd r0)) =
    [(Some Fixture.wsd0, Some "2024-03-01", Some "/app/data");
     (Some Fixture.wsd0, Some "2024-03-02", Some "/app/data");
     (Some Fixture.wsd0, Some "2024-03-03", Some "/app/data")].
Proof. vm_compute. by split_and!. Qed.

(** C4: the parent key of every measurement request.  The device sampler
    addresses each request with the [base] it received as [device_id] and
    the identifier of its device as [module_id].  The station loop passes
    the identifier of the station as [base] in the call for the station and
    in the call for each of its modules: when the loop runs with the name
    [_data_sampler_device] bound to a function of four parameters that hands
    them to the device sampler, every request of the walk carries as
    [device_id] the identifier of a station of the listing and as
    [module_id] the identifier of that station or of one of its modules,
    and when the walk returns normally every metric of every module of
    every station has been requested with the identifier of the owning
    station as [device_id] and the identifier of the module as
    [module_id].  With the function of the module as it stands the walk
    makes no request at all. *)
Theorem C4_module_requests_use_station_id {V} (W : World V) (w : WSD V)
    date dp_save dp (st : State V) :
  let r := data_sampler_stations_with W (sampler_into W dp) (Some w) date dp_save st in
  let rqs := requests (added st (snd r)) in
  (forall wsd base dev date' dp' (st' : State V) rq,
     rq ∈ requests (added st' (snd (_data_sampler_device W wsd base dev date' dp' st'))) ->
     device_id rq = base /\ module_id rq = _id dev) /\
  (forall rq, rq ∈ rqs ->
     exists station, station ∈ map snd (stations w) /\
       device_id rq = _id station /\
       (module_id rq = _id station \/
        exists module, module ∈ modules station /\ module_id rq = _id module)) /\
  (fst r = inr tt ->
   forall station module m,
     station ∈ map snd (stations w) -> module ∈ modules station ->
     m ∈ data_type module ->
     exists rq, rq ∈ rqs /\ device_id rq = _id station /\
                module_id rq = _id module /\ mtype rq = m) /\
  requests (added st (snd (data_sampler_stations W (Some w) date dp_save st))) = [].
Proof.
  intros r rqs.
  assert (Hrun : exists evs,
            trace (snd r)
            = (trace st ++ EvStationWalk (Some w) date dp_save :: evs)%list /\
            (forall rq, rq ∈ requests evs ->
               exists station, station ∈ map snd (stations w) /\
                 device_id rq = _id station /\
                 (module_id rq = _id station \/
                  exists module, module ∈ modules station /\ module_id rq = _id module)) /\
            (fst r = inr tt ->
             forall station module m,
               station ∈ map snd (stations w) -> module ∈ modules station ->
               m ∈ data_type module ->
               exists rq, rq ∈ requests evs /\ device_id rq = _id station /\
                          module_id rq = _id module /\ mtype rq = m)).
  { subst r. unfold data_sampler_stations_with, bind.
    cbn [emit wsd_or_init ret fst snd].
    set (st1 := mkState _ _ _).
    destruct (date_or_yesterday_quiet W date st1) as [_ Htr].
    destruct (date_or_yesterday W date st1) as [[e|d] st2]; cbn [snd] in Htr.
    - exists []. cbn [fst snd]. rewrite Htr.
      split_and!; [done | intros rq Hrq; by apply elem_of_nil in Hrq | done].
    - destruct (for_each_requests_added (sample_station_with (sampler_into W dp) w d)
                  _ _ (map snd (stations w)) st2
                  (fun s st' _ => sample_station_requests_added W w d dp s st'))
        as (evs & Hev & HP & HO).
      exists evs. split_and!.
      + rewrite Hev, Htr. subst st1. cbn [trace]. by rewrite <- app_assoc.
      + intros rq Hrq. destruct (HP rq Hrq) as (s & Hs & Hb & Hm). by exists s.
      + intros Hok station module m Hs Hmod Hm.
        apply (HO Hok (fun rq => device_id rq = _id station /\
                                 module_id rq = _id module /\ mtype rq = m)).
        exists station. split; [done |]. by exists module, m. }
  destruct Hrun as (evs & Htr & HP & HO).
  assert (Hrqs : rqs = requests evs).
  { subst rqs. by rewrite (added_app st (snd r) _ Htr). }
  rewrite Hrqs. split_and!; [| exact HP | exact HO |].
  - intros wsd base dev date' dp' st' rq.
    destruct (_data_sampler_device_requests_added W wsd date' dp' base dev st')
      as (evs' & Htr' & HP' & _).
    rewrite (added_app _ _ _ Htr'). apply HP'.
  - destruct (data_sampler_stations_quiet W (Some w) date dp_save st)
      as (_ & evs' & Htr' & Hr & _).
    by rewrite (added_app _ _ _ Htr').
Qed.

(** C5: when the response for a metric of the device is
    {t1: [v1, extra...], t2: [v2, extra...]} and the loop reaches that
    metric (the two epoch conversions succeed and every metric listed
    before it yields a mapping with non-empty value lists), the file of
    that metric holds after the run exactly the header and the two rows
    (toTimeString(t1), v1) and (toTimeString(t2), v2). *)
Theorem C5_first_value_only {V} (W : World V) (wsd : WSD V) base dev date dp
    (st : State V) tstart tend pre metric post t1 v1 extra1 t2 v2 extra2 :
  toEpoch W (date +:+ "_00:00:01") = inr tstart ->
  toEpoch W (date +:+ "_23:59:59") = inr tend ->
  data_type dev = (pre ++ metric :: post)%list ->
  (forall m, m ∈ pre ->
     exists data, getMeasure wsd (Request base (_id dev) "max" m tstart tend) = inr data
                  /\ nonempty_values data) ->
  t1 <> t2 ->
  getMeasure wsd (Request base (_id dev) "max" metric tstart tend)
    = inr [(t1, v1 :: extra1); (t2, v2 :: extra2)] ->
  fs (snd (_data_sampler_device W wsd base dev date dp st))
    !! csv_path dp date (module_name dev) metric
  = Some (mkCsv ["DateTime"; "Value"]
                [[CText (toTimeString W t1); CValue v1];
                 [CText (toTimeString W t2); CValue v2]]).
Proof.
  intros H0 H1 Hdt Hpre _ Hm.
  rewrite _data_sampler_device_run, H0, H1, Hdt. cbn [snd fs].
  apply loop_fs_written; [by apply metric_csv_responds |].
  unfold metric_csv, metric_request. by rewrite Hm.
Qed.

(** C6: when the response for a metric of the device is the empty mapping
    and the loop reaches that metric, the file of that metric is written
    all the same and holds the header DateTime,Value and no row. *)
Theorem C6_empty_response_header_only {V} (W : World V) (wsd : WSD V) base dev
    date dp (st : State V) tstart tend pre metric post :
  toEpoch W (date +:+ "_00:00:01") = inr tstart ->
  toEpoch W (date +:+ "_23:59:59") = inr tend ->
  data_type dev = (pre ++ metric :: post)%list ->
  (forall m, m ∈ pre ->
     exists data, getMeasure wsd (Request base (_id dev) "max" m tstart tend) = inr data
                  /\ nonempty_values data) ->
  getMeasure wsd (Request base (_id dev) "max" metric tstart tend) = inr [] ->
  let st' := snd (_data_sampler_device W wsd base dev date dp st) in
  fs st' !! csv_path dp date (module_name dev) metric
    = Some (mkCsv ["DateTime"; "Value"] []) /\
  EvWrite (csv_path dp date (module_name dev) metric) (mkCsv ["DateTime"; "Value"] [])
    ∈ trace st'.
Proof.
  intros H0 H1 Hdt Hpre Hm st'. subst st'.
  rewrite _data_sampler_device_run, H0, H1, Hdt. cbn [snd fs trace].
  assert (Hc : metric_csv W wsd base dev tstart tend metric
               = inr (mkCsv ["DateTime"; "Value"] [])).
  { unfold metric_csv, metric_request. by rewrite Hm. }
  split.
  - apply loop_fs_written; [by apply metric_csv_responds | done].
  - rewrite loop_events_app_ok by (by apply metric_csv_responds).
    simpl. rewrite Hc. set_solver.
Qed.

(** C7: running the device sampler a second time, on the state the first
    run left and with the same responses, ends the same way, repeats the
    same requests and writes, and leaves every file as the first run left
    it. *)
Theorem C7_resample_idempotent {V} (W : World V) (wsd : WSD V) base dev date dp
    (st : State V) :
  let once := _data_sampler_device W wsd base dev date dp st in
  let twice := _data_sampler_device W wsd base dev date dp (snd once) in
  fs (snd twice) = fs (snd once) /\
  fst twice = fst once /\
  exists evs, trace (snd once) = (trace st ++ evs)%list
              /\ trace (snd twice) = (trace st ++ evs ++ evs)%list.
Proof.
  intros once twice. subst once twice.
  rewrite !_data_sampler_device_run.
  destruct (toEpoch W (date +:+ "_00:00:01")) as [e|t0].
  { split_and!; [done | done |]. exists []. by rewrite !app_nil_r. }
  destruct (toEpoch W (date +:+ "_23:59:59")) as [e|t1].
  { split_and!; [done | done |]. exists []. by rewrite !app_nil_r. }
  cbn [fst snd fs trace]. split_and!; [apply loop_fs_idem | done |].
  eexists. split; [done |]. by rewrite app_assoc.
Qed.

(** C8 (amended): [_init_wsd] raises a [FileNotFoundError] before anything
    has reached the network exactly when no credentials are supplied ([None]
    or the empty dictionary) and the credentials file does not exist; the
    exception then is the missing-configuration error and the run has done
    nothing but try to open the file.  The token exchange and the handle
    constructor run outside the [try]: when credentials [d] come from the
    argument or from the file, the exchange is made with [d] and the
    outcome is the handle built from the token, or the exception of the
    exchange or of the constructor as it is.  So [_init_wsd] raises a
    [FileNotFoundError] in two cases only: the one above, and when the
    exchange or the constructor raises one with credentials at hand. *)
Theorem C8_missing_configuration {V} (W : World V) auth (st : State V) :
  let r := _init_wsd W auth st in
  let raises_FileNotFoundError :=
    exists e, fst r = inl e /\ exn_cls e = FileNotFoundError in
  let off_line := Forall (fun ev => is_network ev = false) (added st (snd r)) in
  let exchange d :=
    match ClientAuth W d with
    | inl e => inl e
    | inr a => WeatherStationData W a
    end in
  ((raises_FileNotFoundError /\ off_line)
   <-> (not_dict auth = true /\ config_missing W)) /\
  (not_dict auth = true -> config_missing W ->
   fst r = inl missing_configuration /\
   added st (snd r) = [EvOpen (os_path_join (THISDIR W) CONFIG_FILENAME)]) /\
  (forall d, credentials_from W auth d ->
     EvClientAuth d ∈ added st (snd r) /\ fst r = exchange d) /\
  (raises_FileNotFoundError
   <-> (not_dict auth = true /\ config_missing W)
       \/ (exists d e, credentials_from W auth d /\ exchange d = inl e
                       /\ exn_cls e = FileNotFoundError)).
Proof.
  intros r raises_FileNotFoundError off_line exchange.
  subst r raises_FileNotFoundError off_line.
  rewrite _init_wsd_run. cbn [fst snd]. rewrite added_run.
  assert (Hconnect : forall d,
            fst (connect W d) = exchange d /\ EvClientAuth d ∈ snd (connect W d)).
  { intros d. unfold connect. subst exchange. cbv beta.
    destruct (ClientAuth W d) as [e|a]; (split; [done | apply list_elem_of_here]). }
  assert (Hnoisy : forall d (evs : list (event V)),
            EvClientAuth d ∈ evs -> ~ Forall (fun ev => is_network ev = false) evs).
  { intros d evs Hin Hall. rewrite Forall_forall in Hall. by specialize (Hall _ Hin). }
  unfold init_plan, config_missing, credentials_from.
  destruct (not_dict auth) eqn:Hnot.
  - destruct (config_file W) as [e|d] eqn:Hcfg; cbn [fst snd].
    + case_bool_decide as Hcls.
      * split_and!.
        -- split; [by eauto |]. intros _. split; [by eexists | by repeat constructor].
        -- done.
        -- intros d [[? _]|[_ ?]]; done.
        -- split; [by eauto | intros _; by eexists].
      * split_and!.
        -- split; [intros [(e' & [= <-] & He) _] | intros [_ (e' & [= <-] & He)]]; done.
        -- intros _ (e' & [= <-] & He). done.
        -- intros d [[? _]|[_ ?]]; done.
        -- split; [intros (e' & [= <-] & He); done |].
           intros [[_ (e' & [= <-] & He)]|(d & e' & [[? _]|[_ ?]] & _)]; done.
    + destruct (Hconnect d) as [Hr Hev].
      assert (Hin : EvClientAuth d
                      ∈ EvOpen (os_path_join (THISDIR W) CONFIG_FILENAME)
                          :: snd (connect W d)) by (by apply list_elem_of_further).
      split_and!.
      * split; [intros [_ Hall]; by destruct (Hnoisy _ _ Hin) |].
        intros [_ (e' & ? & _)]; done.
      * intros _ (e' & ? & _). done.
      * intros d' [[? _]|[_ Hd']]; [done |]. by injection Hd' as <-.
      * rewrite Hr. split.
        -- intros (e & He & Hcls). right. exists d, e. split_and!; [by right | done | done].
        -- intros [[_ (e' & ? & _)]|(d' & e & [[? _]|[_ Hd']] & He & Hcls)]; [done | done |].
           injection Hd' as <-. by exists e.
  - destruct (Hconnect (default [] auth)) as [Hr Hev]. rewrite Hr.
    split_and!.
    + split; [intros [_ Hall]; by destruct (Hnoisy _ _ Hev) | by intros [? _]].
    + done.
    + intros d [[_ ->]|[? _]]; done.
    + split.
      * intros (e & He & Hcls). right. destruct auth as [d|]; [|done].
        exists d, e. split_and!; [by left | done | done].
      * intros [[? _]|(d & e & [[_ ->]|[? _]] & He & Hcls)]; [done | | done].
        by exists e.
Qed.

(** C9: when the station walker has its handle (supplied, or obtained from
    [_init_wsd]) and its date (supplied, or yesterday) and the station
    listing of the handle is not empty, the call raises a [TypeError]:
    [_data_sampler_device] has the five parameters wsd, base, device, date
    and dp, none with a default, and every call in the station loop passes
    four arguments.  No file is written, no measurement is requested, and
    the outcome is the same for every [dp_save]. *)
Theorem C9_walker_TypeError {V} (W : World V) wsd date dp_save
    (st st1 st2 : State V) w d :
  wsd_or_init W wsd (snd (emit (EvStationWalk wsd date dp_save) st)) = (inr w, st1) ->
  date_or_yesterday W date st1 = (inr d, st2) ->
  stations w <> [] ->
  data_sampler_stations W wsd date dp_save st = (inl (arity_error W), st2) /\
  exn_cls (arity_error W) = TypeError /\
  fs st2 = fs st /\
  (exists evs, trace st2 = (trace st ++ evs)%list
               /\ written evs = [] /\ requests evs = []) /\
  fn_params (_data_sampler_device_fn W) = ["wsd"; "base"; "device"; "date"; "dp"] /\
  (forall station args, args ∈ station_calls w d station -> length args = 4) /\
  (forall dp_save',
     fst (data_sampler_stations W wsd date dp_save' st) = inl (arity_error W)).
Proof.
  intros Hw Hd Hs.
  assert (Hrun : data_sampler_stations W wsd date dp_save st = (inl (arity_error W), st2)).
  { rewrite data_sampler_stations_run, Hw, Hd. by destruct (stations w). }
  destruct (data_sampler_stations_quiet W wsd date dp_save st)
    as (Hfs & evs & Htr & Hrq & Hwr & _).
  rewrite Hrun in Hfs, Htr. cbn [snd] in Hfs, Htr.
  split_and!; [done | done | done | | done | |].
  - eexists. split; [exact Htr |]. by split.
  - intros station args. unfold station_calls.
    intros [->|Hin]%elem_of_cons; [done |].
    by apply list_elem_of_fmap in Hin as (m & -> & _).
  - intros dp_save'.
    by rewrite (data_sampler_stations_ignores_dp_save W wsd date dp_save dp_save'), Hrun.
Qed.

(** C10: when the mapping returned for a metric of the device has a
    timestamp with an empty value list and the loop reaches that metric,
    the device sampler raises an [IndexError]; the path of that metric is
    not written and keeps whatever it held before the run. *)
Theorem C10_empty_value_list_IndexError {V} (W : World V) (wsd : WSD V) base dev
    date dp (st : State V) tstart tend pre metric post data t :
  toEpoch W (date +:+ "_00:00:01") = inr tstart ->
  toEpoch W (date +:+ "_23:59:59") = inr tend ->
  data_type dev = (pre ++ metric :: post)%list ->
  (forall m, m ∈ pre ->
     exists data, getMeasure wsd (Request base (_id dev) "max" m tstart tend) = inr data
                  /\ nonempty_values data) ->
  getMeasure wsd (Request base (_id dev) "max" metric tstart tend) = inr data ->
  (t, []) ∈ data ->
  let r := _data_sampler_device W wsd base dev date dp st in
  fst r = inl (Exn IndexError "list index out of range") /\
  fs (snd r) !! csv_path dp date (module_name dev) metric
    = fs st !! csv_path dp date (module_name dev) metric /\
  exists evs, trace (snd r) = (trace st ++ evs)%list
              /\ csv_path dp date (module_name dev) metric ∉ written evs.
Proof.
  intros H0 H1 Hdt Hpre Hm Ht r. subst r.
  rewrite _data_sampler_device_run, H0, H1, Hdt. cbn [fst snd fs trace].
  assert (Hc : metric_csv W wsd base dev tstart tend metric
               = inl (Exn IndexError "list index out of range")).
  { unfold metric_csv, metric_request. rewrite Hm.
    by rewrite (first_values_empty data t Ht). }
  destruct (loop_fs_failed W wsd base dev date dp tstart tend pre metric post _ (fs st)
              (metric_csv_responds W wsd base dev tstart tend pre Hpre) Hc)
    as (Hr & Hf & Hw).
  split_and!; [done | done |]. by eexists.
Qed.

(** * Instances on the concrete world *)

Module Instances.
Import Fixture.

(** The device sampler called with all five arguments, for the station and
    then for its module: the two files of the scenario of C1 and the
    request of the module addressed with "S1" and "M1". *)
Example sampler_called_with_dp :
  let run :=
    bind (_data_sampler_device (world wsd1) wsd1 "S1" S1 "2024-03-01" "/app/data")
         (fun _ => _data_sampler_device (world wsd1) wsd1 "S1" M1 "2024-03-01" "/app/data")
         st0 in
  fst run = inr tt /\
  written (trace (snd run)) =
    ["/app/data/2024-03-01_Outdoor_Temperature.csv"; "/app/data/2024-03-01_Rain_Rain.csv"] /\
  requests (trace (snd run)) =
    [Request "S1" "S1" "max" "Temperature" 1709251201 1709337599;
     Request "S1" "M1" "max" "Rain" 1709251201 1709337599].
Proof. vm_compute. by split_and!. Qed.

(** The station walk of the scenario of C1 with the calls handed on to the
    device sampler together with a directory: the two files, and the module
    requested with "S1" and "M1". *)
Example walk_with_sampler_into :
  let run := data_sampler_stations_with (world wsd1) (sampler_into (world wsd1) "/app/data")
               (Some wsd1) (Some "2024-03-01") None st0 in
  fst run = inr tt /\
  written (trace (snd run)) =
    ["/app/data/2024-03-01_Outdoor_Temperature.csv"; "/app/data/2024-03-01_Rain_Rain.csv"] /\
  requests (trace (snd run)) =
    [Request "S1" "S1" "max" "Temperature" 1709251201 1709337599;
     Request "S1" "M1" "max" "Rain" 1709251201 1709337599].
Proof. vm_compute. by split_and!. Qed.

(** C4 on the module "M1" of the station "S1": its rain is requested, with
    "S1" as [device_id]. *)
Lemma C4_witness :
  exists rq,
    rq ∈ requests (added st0 (snd (data_sampler_stations_with (world wsd1)
                                     (sampler_into (world wsd1) "/out")
                                     (Some wsd1) (Some "2024-03-01") None st0))) /\
    device_id rq = "S1" /\ module_id rq = "M1" /\ mtype rq = "Rain".
Proof.
  destruct (C4_module_requests_use_station_id (world wsd1) wsd1 (Some "2024-03-01")
              None "/out" st0) as (_ & _ & Hall & _).
  apply (Hall eq_refl S1 M1 "Rain").
  - apply list_elem_of_here.
  - apply list_elem_of_here.
  - apply list_elem_of_here.
Defined.

(** C5 on the two temperature points of the station. *)
Lemma C5_witness :
  fs (snd (_data_sampler_device (world wsd1) wsd1 "S1" S1 "2024-03-01" "/out" st0))
    !! "/out/2024-03-01_Outdoor_Temperature.csv"
  = Some (mkCsv ["DateTime"; "Value"]
                [[CText "2024-03-01_00:05:00"; CValue 215%Z];
                 [CText "2024-03-01_00:10:00"; CValue 216%Z]]).
Proof.
  apply (C5_first_value_only (world wsd1) wsd1 "S1" S1 "2024-03-01" "/out" st0
           1709251201 1709337599 [] "Temperature" []
           1709251500 215%Z [7%Z] 1709251800 216%Z [8%Z]).
  - reflexivity.
  - reflexivity.
  - reflexivity.
  - intros m Hm. by apply elem_of_nil in Hm.
  - lia.
  - reflexivity.
Defined.

(** C6 on the rain module, which has no data. *)
Lemma C6_witness :
  fs (snd (_data_sampler_device (world wsd1) wsd1 "S1" M1 "2024-03-01" "/out" st0))
    !! "/out/2024-03-01_Rain_Rain.csv"
  = Some (mkCsv ["DateTime"; "Value"] []).
Proof.
  apply (C6_empty_response_header_only (world wsd1) wsd1 "S1" M1 "2024-03-01" "/out"
           st0 1709251201 1709337599 [] "Rain" []).
  - reflexivity.
  - reflexivity.
  - reflexivity.
  - intros m Hm. by apply elem_of_nil in Hm.
  - reflexivity.
Defined.

(** C8, the claim as stated fails: the credentials are supplied (and the
    credentials file exists as well), and [_init_wsd] raises a
    [FileNotFoundError] all the same, that of the token exchange, after the
    exchange was attempted. *)
Lemma C8_counterexample :
  let r := _init_wsd Fixture2.world_library_file_missing (Some credentials) st0 in
  not_dict (Some credentials) = false /\
  ~ config_missing Fixture2.world_library_file_missing /\
  fst r = inl (Exn FileNotFoundError "No such file or directory") /\
  trace (snd r) = [EvClientAuth credentials] /\
  @is_network Z (EvClientAuth credentials) = true.
Proof.
  split_and!; [done | | done | done | done].
  by intros (e & He & _).
Qed.

(** C8 without and with a credentials file. *)
Lemma C8_witness :
  fst (_init_wsd world_no_config None st0) = inl missing_configuration /\
  fst (_init_wsd (world wsd1) None st0) = inr wsd1.
Proof.
  split.
  - destruct (C8_missing_configuration world_no_config None st0) as (_ & Hmiss & _).
    apply Hmiss; [reflexivity |]. eexists. split; reflexivity.
  - destruct (C8_missing_configuration (world wsd1) None st0) as (_ & _ & Hcred & _).
    destruct (Hcred credentials) as [_ Hr]; [right; split; reflexivity |].
    exact Hr.
Defined.

(** C9 on the station "S1", with an output directory supplied. *)
Lemma C9_witness :
  exists st',
    data_sampler_stations (world wsd1) (Some wsd1) (Some "2024-03-01") (Some "/out") st0
    = (inl (arity_error (world wsd1)), st') /\ fs st' = ∅.
Proof.
  eexists.
  destruct (C9_walker_TypeError (world wsd1) (Some wsd1) (Some "2024-03-01")
              (Some "/out") st0 _ _ wsd1 "2024-03-01" eq_refl eq_refl)
    as (Hrun & _ & Hfs & _).
  - discriminate.
  - split; [exact Hrun | exact Hfs].
Defined.

(** C10 on a temperature point without value. *)
Lemma C10_witness :
  fst (_data_sampler_device (world wsd_gap) wsd_gap "S1" S1 "2024-03-01" "/out" st0)
  = inl (Exn IndexError "list index out of range").
Proof.
  apply (C10_empty_value_list_IndexError (world wsd_gap) wsd_gap "S1" S1 "2024-03-01"
           "/out" st0 1709251201 1709337599 [] "Temperature" []
           [(1709251500, [215; 7]); (1709251800, [])]%Z 1709251800%Z).
  - reflexivity.
  - reflexivity.
  - reflexivity.
  - intros m Hm. by apply elem_of_nil in Hm.
  - reflexivity.
  - apply list_elem_of_further, list_elem_of_here.
Defined.

End Instances.

(** * Further properties *)

(** ** The metric loop, continued *)

Section DeviceFacts.
Context {V : Type} (W : World V) (wsd : WSD V) (base : string) (dev : device)
        (date dp : string) (tstart tend : Z).

Local Abbreviation rq := (metric_request base dev tstart tend).
Local Abbreviation path := (metric_path dev date dp).
Local Abbreviation mcsv := (metric_csv W wsd base dev tstart tend).
Local Abbreviation lfs := (loop_fs W wsd base dev date dp tstart tend).
Local Abbreviation lev := (loop_events W wsd base dev date dp tstart tend).
Local Abbreviation lres := (loop_result W wsd base dev tstart tend).
Local Abbreviation llast := (loop_last W wsd base dev date dp tstart tend).
Local Abbreviation yields :=
  (fun m => is_Some (match mcsv m with inr c => Some c | inl _ => None end)).

Lemma loop_all_ok ms :
  Forall yields ms ->
  lres ms = inr tt /\ requests (lev ms) = map rq ms /\ written (lev ms) = map path ms.
Proof.
  induction 1 as [|m ms [c Hm] _ (IH1 & IH2 & IH3)]; simpl; [done |].
  destruct (mcsv m) as [e|c']; [done |].
  split_and!; [done | |].
  - change (requests (EvGetMeasure (rq m) :: EvWrite (path m) c' :: lev ms))
      with (rq m :: requests (lev ms)). by rewrite IH2.
  - change (written (EvGetMeasure (rq m) :: EvWrite (path m) c' :: lev ms))
      with (path m :: written (lev ms)). by rewrite IH3.
Qed.

Lemma loop_app_fail pre m post e files :
  Forall yields pre -> mcsv m = inl e ->
  lfs (pre ++ m :: post)%list files = lfs pre files /\
  lev (pre ++ m :: post)%list = (lev pre ++ [EvGetMeasure (rq m)])%list.
Proof.
  intros Hpre Hm. revert files.
  induction Hpre as [|m' pre [c Hm'] _ IH]; intros files; simpl.
  - by rewrite Hm.
  - destruct (mcsv m') as [e'|c']; [done |].
    destruct (IH (<[path m' := c']> files)) as [-> ->]. done.
Qed.

Lemma loop_fs_all_written ms files m :
  Forall yields ms -> m ∈ ms -> is_Some (lfs ms files !! path m).
Proof.
  intros Hms Hin. apply list_elem_of_split in Hin as (l1 & l2 & ->).
  apply Forall_app in Hms as [H1 H2]. apply Forall_cons in H2 as [[c Hc] _].
  destruct (mcsv m) as [e|c'] eqn:Hm; [done |].
  exists c'. by apply loop_fs_written.
Qed.

Lemma loop_fs_frame ms files p :
  (forall m, m ∈ ms -> path m <> p) -> lfs ms files !! p = files !! p.
Proof.
  intros Hp. rewrite loop_fs_lookup.
  destruct (llast ms p) as [c|] eqn:Hl; [|done].
  apply loop_last_Some in Hl as (m & Hin & Hpath & _). by destruct (Hp m Hin).
Qed.

End DeviceFacts.

Lemma first_value_rows_cons {V} (W : World V) t v vs (data : body V) :
  first_value_rows W ((t, v :: vs) :: data)
  = [CText (toTimeString W t); CValue v] :: first_value_rows W data.
Proof. reflexivity. Qed.

Lemma to_csv_first_value_rows {V} (W : World V) (data : body V) values :
  first_values data = inr values ->
  to_csv (mkDataFrame (map (fun '(key, _) => toTimeString W key) data) values) false
  = mkCsv ["DateTime"; "Value"] (first_value_rows W data).
Proof.
  unfold to_csv. cbn [DateTime Value]. intros H. f_equal.
  revert values H. induction data as [|[t vs] data IH]; intros values;
    cbn [first_values].
  - by intros [= <-].
  - destruct vs as [|v vs]; [done |].
    destruct (first_values data) as [e|values'] eqn:Hd; [done |].
    intros [= <-]. rewrite first_value_rows_cons. cbn [map combine].
    f_equal. by apply IH.
Qed.

Lemma first_value_rows_lookup {V} (W : World V) (data : body V) :
  nonempty_values data ->
  length (first_value_rows W data) = length data /\
  forall i t vs, data !! i = Some (t, vs) ->
    exists v, head vs = Some v /\
      first_value_rows W data !! i = Some [CText (toTimeString W t); CValue v].
Proof.
  induction 1 as [|[t vs] data Hvs _ [IHl IHi]]; [done |].
  destruct vs as [|v vs]; [done |].
  rewrite first_value_rows_cons. simpl. split; [by rewrite IHl |].
  intros [|i] t' vs' Hi; simpl in Hi.
  - injection Hi as <- <-. by exists v.
  - by apply IHi.
Qed.

Lemma metric_csv_rows {V} (W : World V) wsd base dev tstart tend m data :
  getMeasure wsd (Request base (_id dev) "max" m tstart tend) = inr data ->
  nonempty_values data ->
  metric_csv W wsd base dev tstart tend m
  = inr (mkCsv ["DateTime"; "Value"] (first_value_rows W data)).
Proof.
  intros Hd Hne. unfold metric_csv, metric_request. rewrite Hd.
  destruct (first_values_nonempty data Hne) as [values Hv]. rewrite Hv.
  by rewrite (to_csv_first_value_rows W data values Hv).
Qed.

(** The file of a metric the loop reaches, for any mapping with values. *)
Lemma _data_sampler_device_table {V} (W : World V) (wsd : WSD V) base dev date dp
    (st : State V) tstart tend pre metric post data :
  toEpoch W (date +:+ "_00:00:01") = inr tstart ->
  toEpoch W (date +:+ "_23:59:59") = inr tend ->
  data_type dev = (pre ++ metric :: post)%list ->
  (forall m, m ∈ pre ->
     exists data, getMeasure wsd (Request base (_id dev) "max" m tstart tend) = inr data
                  /\ nonempty_values data) ->
  getMeasure wsd (Request base (_id dev) "max" metric tstart tend) = inr data ->
  nonempty_values data ->
  fs (snd (_data_sampler_device W wsd base dev date dp st))
    !! csv_path dp date (module_name dev) metric
  = Some (mkCsv ["DateTime"; "Value"] (first_value_rows W data)).
Proof.
  intros H0 H1 Hdt Hpre Hm Hne.
  rewrite _data_sampler_device_run, H0, H1, Hdt. cbn [snd fs].
  apply loop_fs_written; [by apply metric_csv_responds |].
  by apply metric_csv_rows.
Qed.

Lemma csv_path_under_dp (dp date name m : string) :
  startswith_sep date = false ->
  exists rest, csv_path dp date name m = dp +:+ rest.
Proof.
  intros Hd. unfold csv_path, os_path_join.
  assert (startswith_sep (date +:+ "_" +:+ name +:+ "_" +:+ m +:+ ".csv") = false) as ->.
  { destruct date as [|c d]; [done |]. by rewrite append_cons. }
  destruct (String.eqb dp EmptyString || endswith_sep dp); by eexists.
Qed.

(** X1: when both epoch conversions succeed and every metric of the device
    yields a mapping with non-empty value lists, the device sampler returns
    normally, makes one request per entry of [data_type] in the listed
    order (each for the given base and device, at scale "max", between the
    two epochs) and writes one file per entry, named from the date, the
    module name and the metric; distinct metrics give distinct files, and
    every metric has its file afterwards. *)
Theorem sampler_one_request_and_file_per_metric {V} (W : World V) (wsd : WSD V)
    base dev date dp (st : State V) tstart tend :
  toEpoch W (date +:+ "_00:00:01") = inr tstart ->
  toEpoch W (date +:+ "_23:59:59") = inr tend ->
  (forall m, m ∈ data_type dev ->
     exists data, getMeasure wsd (Request base (_id dev) "max" m tstart tend) = inr data
                  /\ nonempty_values data) ->
  let r := _data_sampler_device W wsd base dev date dp st in
  fst r = inr tt /\
  exists evs,
    trace (snd r) = (trace st ++ evs)%list /\
    requests evs
      = map (fun m => Request base (_id dev) "max" m tstart tend) (data_type dev) /\
    written evs = map (csv_path dp date (module_name dev)) (data_type dev) /\
    (NoDup (data_type dev) -> NoDup (written evs)) /\
    (forall m, m ∈ data_type dev ->
       is_Some (fs (snd r) !! csv_path dp date (module_name dev) m)).
Proof.
  intros H0 H1 Hall r. subst r.
  rewrite _data_sampler_device_run, H0, H1. cbn [fst snd fs trace].
  pose proof (metric_csv_responds W wsd base dev tstart tend _ Hall) as Hok.
  destruct (loop_all_ok W wsd base dev date dp tstart tend _ Hok) as (Hr & Hrq & Hwr).
  split; [done |]. eexists. split_and!; [done | exact Hrq | exact Hwr | |].
  - intros Hnd. rewrite Hwr. unfold metric_path.
    assert (Hinj : Inj (=) (=) (csv_path dp date (module_name dev)))
      by (intros m1 m2; apply csv_path_inj).
    by apply (NoDup_fmap_2 (csv_path dp date (module_name dev))).
  - intros m Hm. by apply (loop_fs_all_written W wsd base dev date dp tstart tend).
Qed.

(** X2: the file of a metric the loop reaches has one record per timestamp
    of the response, in the order of the response, made of the converted
    timestamp and the first value of that timestamp. *)
Theorem sampler_rows_follow_response {V} (W : World V) (wsd : WSD V) base dev date dp
    (st : State V) tstart tend pre metric post data :
  toEpoch W (date +:+ "_00:00:01") = inr tstart ->
  toEpoch W (date +:+ "_23:59:59") = inr tend ->
  data_type dev = (pre ++ metric :: post)%list ->
  (forall m, m ∈ pre ->
     exists data, getMeasure wsd (Request base (_id dev) "max" m tstart tend) = inr data
                  /\ nonempty_values data) ->
  getMeasure wsd (Request base (_id dev) "max" metric tstart tend) = inr data ->
  nonempty_values data ->
  exists rows,
    fs (snd (_data_sampler_device W wsd base dev date dp st))
      !! csv_path dp date (module_name dev) metric
    = Some (mkCsv ["DateTime"; "Value"] rows) /\
    length rows = length data /\
    forall i t vs, data !! i = Some (t, vs) ->
      exists v, head vs = Some v /\
        rows !! i = Some [CText (toTimeString W t); CValue v].
Proof.
  intros H0 H1 Hdt Hpre Hm Hne. exists (first_value_rows W data).
  split; [by eapply _data_sampler_device_table |].
  by apply first_value_rows_lookup.
Qed.

(** X3: when the request for a metric raises, the device sampler raises
    the same exception; the metrics listed before it have been requested
    and their files stay written, the failing metric has been requested
    and its file is left as it was, and the metrics listed after it are
    not requested. *)
Theorem sampler_request_failure_no_rollback {V} (W : World V) (wsd : WSD V) base dev
    date dp (st : State V) tstart tend pre metric post e :
  toEpoch W (date +:+ "_00:00:01") = inr tstart ->
  toEpoch W (date +:+ "_23:59:59") = inr tend ->
  data_type dev = (pre ++ metric :: post)%list ->
  (forall m, m ∈ pre ->
     exists data, getMeasure wsd (Request base (_id dev) "max" m tstart tend) = inr data
                  /\ nonempty_values data) ->
  getMeasure wsd (Request base (_id dev) "max" metric tstart tend) = inl e ->
  let r := _data_sampler_device W wsd base dev date dp st in
  fst r = inl e /\
  (exists evs,
     trace (snd r) = (trace st ++ evs)%list /\
     requests evs
       = map (fun m => Request base (_id dev) "max" m tstart tend) (pre ++ [metric])%list /\
     written evs = map (csv_path dp date (module_name dev)) pre) /\
  (forall m, m ∈ pre -> is_Some (fs (snd r) !! csv_path dp date (module_name dev) m)) /\
  fs (snd r) !! csv_path dp date (module_name dev) metric
    = fs st !! csv_path dp date (module_name dev) metric.
Proof.
  intros H0 H1 Hdt Hpre Hm r. subst r.
  rewrite _data_sampler_device_run, H0, H1, Hdt. cbn [fst snd fs trace].
  pose proof (metric_csv_responds W wsd base dev tstart tend _ Hpre) as Hok.
  assert (Hc : metric_csv W wsd base dev tstart tend metric = inl e).
  { unfold metric_csv, metric_request. by rewrite Hm. }
  destruct (loop_fs_failed W wsd base dev date dp tstart tend pre metric post e (fs st)
              Hok Hc) as (Hr & Hf & _).
  destruct (loop_app_fail W wsd base dev date dp tstart tend pre metric post e (fs st)
              Hok Hc) as [Hfs Hev].
  destruct (loop_all_ok W wsd base dev date dp tstart tend _ Hok) as (_ & Hrq & Hwr).
  split_and!; [done | | | done].
  - eexists. split; [done |]. rewrite Hev, requests_app, written_app, Hrq, Hwr.
    split; [by rewrite map_app | by rewrite app_nil_r].
  - intros m Hin. rewrite Hfs.
    by apply (loop_fs_all_written W wsd base dev date dp tstart tend).
Qed.

(** X4: when the conversion of the start or of the end of the day raises,
    the device sampler raises that exception before anything else: the
    state is unchanged, no request is made and no file is written. *)
Theorem sampler_bad_date_no_effect {V} (W : World V) (wsd : WSD V) base dev date dp
    (st : State V) e :
  toEpoch W (date +:+ "_00:00:01") = inl e
  \/ ((exists t, toEpoch W (date +:+ "_00:00:01") = inr t)
      /\ toEpoch W (date +:+ "_23:59:59") = inl e) ->
  _data_sampler_device W wsd base dev date dp st = (inl e, st).
Proof.
  intros [H0|[[t H0] H1]]; rewrite _data_sampler_device_run, H0; [done |].
  by rewrite H1.
Qed.

(** X5: whatever the responses, the device sampler writes only at the
    paths of the metrics of the device, every other file is left as it
    was, and when the date does not begin with the path separator these
    paths begin with the destination directory. *)
Theorem sampler_touches_only_its_files {V} (W : World V) (wsd : WSD V) base dev
    date dp (st : State V) :
  let r := _data_sampler_device W wsd base dev date dp st in
  (exists evs,
     trace (snd r) = (trace st ++ evs)%list /\
     forall p, p ∈ written evs ->
       exists m, m ∈ data_type dev /\ p = csv_path dp date (module_name dev) m) /\
  (forall p, (forall m, m ∈ data_type dev -> csv_path dp date (module_name dev) m <> p) ->
     fs (snd r) !! p = fs st !! p) /\
  (startswith_sep date = false ->
   forall m, exists rest, csv_path dp date (module_name dev) m = dp +:+ rest).
Proof.
  intros r. subst r. rewrite _data_sampler_device_run.
  destruct (toEpoch W (date +:+ "_00:00:01")) as [e|t0].
  { split_and!; [| done | intros; by apply csv_path_under_dp].
    exists []. rewrite app_nil_r. split; [done |]. intros p Hp. by apply elem_of_nil in Hp. }
  destruct (toEpoch W (date +:+ "_23:59:59")) as [e|t1].
  { split_and!; [| done | intros; by apply csv_path_under_dp].
    exists []. rewrite app_nil_r. split; [done |]. intros p Hp. by apply elem_of_nil in Hp. }
  cbn [snd fs trace]. split_and!.
  - eexists. split; [done |]. intros p Hp.
    apply loop_events_written in Hp as (m & Hin & Hpath & _). by exists m.
  - intros p Hp. by apply loop_fs_frame.
  - intros; by apply csv_path_under_dp.
Qed.

(** X6: files are named from the module name, not from the identifier: when
    a device is sampled after another device of the same module name, for
    the same date and directory, the file of a metric of the second device
    holds the data of the second device, whatever the first wrote there. *)
Theorem same_name_devices_share_files {V} (W : World V) (wsd : WSD V) baseA devA
    baseB devB date dp (st : State V) tstart tend pre metric post data :
  module_name devA = module_name devB ->
  fst (_data_sampler_device W wsd baseA devA date dp st) = inr tt ->
  toEpoch W (date +:+ "_00:00:01") = inr tstart ->
  toEpoch W (date +:+ "_23:59:59") = inr tend ->
  data_type devB = (pre ++ metric :: post)%list ->
  (forall m, m ∈ pre ->
     exists data, getMeasure wsd (Request baseB (_id devB) "max" m tstart tend) = inr data
                  /\ nonempty_values data) ->
  getMeasure wsd (Request baseB (_id devB) "max" metric tstart tend) = inr data ->
  nonempty_values data ->
  fs (snd (bind (_data_sampler_device W wsd baseA devA date dp)
                (fun _ => _data_sampler_device W wsd baseB devB date dp) st))
    !! csv_path dp date (module_name devA) metric
  = Some (mkCsv ["DateTime"; "Value"] (first_value_rows W data)).
Proof.
  intros Hname HA H0 H1 Hdt Hpre Hm Hne. unfold bind.
  destruct (_data_sampler_device W wsd baseA devA date dp st) as [[e|[]] stA];
    [done |].
  rewrite Hname. by eapply _data_sampler_device_table.
Qed.

(** ** Session initializer, station walker and period walker, continued *)

Lemma strftime_ymd_nonempty d : PyDatetime.strftime_ymd d <> EmptyString.
Proof. unfold PyDatetime.strftime_ymd, PyDatetime.pad4. by rewrite append_cons. Qed.

Lemma not_str_strftime d : not_str (Some (PyDatetime.strftime_ymd d)) = false.
Proof. apply String.eqb_neq, strftime_ymd_nonempty. Qed.

Section HandleFacts.
Context {V : Type} (W : World V).

(** With a handle and a date the walker does nothing but record the walk
    and run the station loop. *)
Lemma data_sampler_stations_supplied w d dp_save (st : State V) :
  d <> EmptyString ->
  data_sampler_stations W (Some w) (Some d) dp_save st =
  (match stations w with [] => inr tt | _ :: _ => inl (arity_error W) end,
   mkState (fs st) (trace st ++ [EvStationWalk (Some w) (Some d) dp_save]) (ticks st)).
Proof.
  intros Hd. rewrite data_sampler_stations_run. cbn [wsd_or_init ret emit snd].
  unfold date_or_yesterday. cbn [not_str].
  by replace (String.eqb d EmptyString) with false by (symmetry; by apply String.eqb_neq).
Qed.

Lemma data_sampler_stations_handle_trace w date dp_save (st : State V) :
  fs (snd (data_sampler_stations W (Some w) date dp_save st)) = fs st /\
  trace (snd (data_sampler_stations W (Some w) date dp_save st))
  = (trace st ++ [EvStationWalk (Some w) date dp_save])%list.
Proof.
  rewrite data_sampler_stations_run. cbn [wsd_or_init ret emit snd].
  set (st0 := mkState _ _ _).
  destruct (date_or_yesterday_quiet W date st0) as [Hfs Htr].
  by destruct (date_or_yesterday W date st0) as [[e|d] st2].
Qed.

(** One iteration of the loop, also when the subtraction overflows. *)
Lemma period_loop_unfold w dp n (st : State V) :
  period_loop W w dp (S n) st =
  match PyDatetime.datetime_sub_days (clock W (ticks st)) (Z.of_nat (S n)) with
  | inl e => (inl e, mkState (fs st) (trace st) (S (ticks st)))
  | inr d =>
      match data_sampler_stations W (Some w) (Some (PyDatetime.strftime_ymd d))
              (Some dp)
              (mkState (fs st) (trace st ++ [EvPrint (PyDatetime.strftime_ymd d)])
                       (S (ticks st))) with
      | (inr _, st_c) => period_loop W w dp n st_c
      | (inl e, st_c) => (inl e, st_c)
      end
  end.
Proof.
  cbn [period_loop]. unfold bind, datetime_now, lift, print, emit. cbn [fst snd].
  destruct (PyDatetime.datetime_sub_days _ _) as [e|d]; [done |].
  cbn [fs trace ticks].
  by destruct (data_sampler_stations W _ _ _ _) as [[e|[]] st_c].
Qed.

(** Prints and walks are no exchange, no opening, no handle construction,
    no request and no write. *)
Lemma print_or_walk_quiet w dp (evs : list (event V)) :
  Forall (print_or_walk w dp) evs ->
  exchanges evs = [] /\ opened evs = [] /\ constructions evs = [] /\
  requests evs = [] /\ written evs = [].
Proof.
  induction 1 as [|ev evs (s & [->| ->]) _ IH]; [done | exact IH | exact IH].
Qed.

(** The period loop adds prints and walks only. *)
Lemma period_loop_events w dp n (st : State V) :
  let r := period_loop W w dp n st in
  fs (snd r) = fs st /\
  exists evs, trace (snd r) = (trace st ++ evs)%list
              /\ Forall (print_or_walk w dp) evs.
Proof.
  assert (Hp : forall s, print_or_walk w dp (EvPrint s : event V))
    by (intros s; exists s; by left).
  assert (Hw : forall s, print_or_walk w dp (EvStationWalk (Some w) (Some s) (Some dp)))
    by (intros s; exists s; by right).
  revert st. induction n as [|n IH]; intros st r; subst r.
  - simpl. split; [done |]. exists []. by rewrite app_nil_r.
  - rewrite period_loop_unfold.
    destruct (PyDatetime.datetime_sub_days _ _) as [e|d].
    { split; [done |]. exists []. cbn [snd trace]. by rewrite app_nil_r. }
    set (st_b := mkState _ _ _).
    destruct (data_sampler_stations_handle_trace w (Some (PyDatetime.strftime_ymd d))
                (Some dp) st_b) as [Hfs Htr].
    destruct (data_sampler_stations W (Some w) _ (Some dp) st_b) as [[e|[]] st_c];
      cbn [snd] in Hfs, Htr.
    + cbn [snd]. split; [done |]. rewrite Htr. subst st_b. cbn [trace].
      rewrite <- app_assoc. eexists. split; [done |]. cbn [app].
      by repeat constructor.
    + destruct (IH st_c) as (Hfs' & evs & Hev & Hall).
      split; [by rewrite Hfs', Hfs |].
      rewrite Hev, Htr. subst st_b. cbn [trace]. rewrite <- !app_assoc.
      eexists. split; [done |]. cbn [app].
      by repeat constructor.
Qed.

End HandleFacts.

Lemma period_days_length {V} (W : World V) t n : length (period_days W t n) = n.
Proof. revert t. induction n; intros; simpl; [done | by rewrite IHn]. Qed.

Lemma period_days_lookup {V} (W : World V) t n i :
  i < n ->
  period_days W t n !! i
  = Some (PyDatetime.toordinal (clock W (t + i)) - Z.of_nat (n - i))%Z.
Proof.
  revert t i. induction n as [|n IH]; intros t i Hi; [lia |].
  destruct i as [|i]; cbn [period_days].
  - by rewrite Nat.add_0_r.
  - change ((?x :: ?l) !! S i) with (l !! i). rewrite IH by lia.
    do 4 f_equal; lia.
Qed.

Section ClockFacts.
Context {V : Type} (W : World V) (w : WSD V) (dp : string).

(** The loop with any clock that stays valid and late enough. *)
Lemma period_loop_days n (st : State V) :
  (forall k, ticks st <= k ->
     PyDatetime.valid_datetime (clock W k)
     /\ (Z.of_nat n < PyDatetime.toordinal (clock W k))%Z) ->
  let r := period_loop W w dp n st in
  exists k, k <= n /\
    walks (trace (snd r)) =
      (walks (trace st)
         ++ take k (map (fun o => (Some w, Some (day_string o), Some dp))
                        (period_days W (ticks st) n)))%list /\
    (fst r = inr tt -> k = n) /\
    (stations w = [] -> fst r = inr tt).
Proof.
  revert st. induction n as [|n IH]; intros st Hclock r; subst r.
  - exists 0. simpl. rewrite app_nil_r. by split_and!.
  - destruct (Hclock (ticks st)) as [Hv Hlate]; [lia |].
    destruct (CalendarFacts.datetime_sub_days_inr (clock W (ticks st)) (Z.of_nat (S n)))
      as (d & Hd & Hs); [done | lia | lia |].
    rewrite period_loop_unfold, Hd.
    rewrite data_sampler_stations_supplied by apply strftime_ymd_nonempty.
    set (st_c := mkState _ _ _).
    assert (Hwalk : walks (trace st_c) =
              (walks (trace st)
                 ++ [(Some w, Some (day_string
                        (PyDatetime.toordinal (clock W (ticks st)) - Z.of_nat (S n))),
                      Some dp)])%list).
    { subst st_c. cbn [trace]. rewrite !walks_app, Hs. cbn. by rewrite app_nil_r. }
    destruct (stations w) as [|s l] eqn:Hst.
    + destruct (IH st_c) as (k & Hk & Hwk & Hall & Hok).
      { intros j Hj. subst st_c. cbn [ticks] in Hj.
        destruct (Hclock j) as [? ?]; [lia |]. split; [done | lia]. }
      exists (S k). split_and!; [lia | | intros ?; f_equal; auto | auto].
      rewrite Hwk, Hwalk. cbn [period_days map take]. rewrite <- app_assoc.
      by subst st_c.
    + exists 1. split_and!; [lia | | done | done].
      cbn [snd period_days map take]. rewrite take_0. exact Hwalk.
Qed.

End ClockFacts.

(** X7: only a [FileNotFoundError] is turned into the
    missing-configuration error: when reading the credentials file raises
    an exception of another class, [_init_wsd] raises that exception as it
    is, after the attempt to open the file and before any token
    exchange. *)
Theorem init_other_read_errors_propagate {V} (W : World V) auth (st : State V) e :
  not_dict auth = true ->
  config_file W = inl e ->
  exn_cls e <> FileNotFoundError ->
  _init_wsd W auth st =
  (inl e, mkState (fs st)
                  (trace st ++ [EvOpen (os_path_join (THISDIR W) CONFIG_FILENAME)])
                  (ticks st)).
Proof.
  intros Hnot Hcfg Hcls. rewrite _init_wsd_run. unfold init_plan.
  rewrite Hnot, Hcfg. cbn [fst snd]. by rewrite bool_decide_false.
Qed.

(** X8: with a non-empty credentials dictionary supplied, [_init_wsd] does
    not open the credentials file: it makes the token exchange with the
    supplied dictionary and, when the exchange raises, raises the same
    exception without building the handle; otherwise the outcome is that
    of the handle constructor on the token. *)
Theorem init_supplied_credentials_skip_file {V} (W : World V) d (st : State V) :
  d <> [] ->
  (forall e, ClientAuth W d = inl e ->
     _init_wsd W (Some d) st
     = (inl e, mkState (fs st) (trace st ++ [EvClientAuth d]) (ticks st))) /\
  (forall a, ClientAuth W d = inr a ->
     _init_wsd W (Some d) st
     = (WeatherStationData W a,
        mkState (fs st) (trace st ++ [EvClientAuth d; EvStationsData a]) (ticks st))) /\
  opened (trace (snd (_init_wsd W (Some d) st))) = opened (trace st).
Proof.
  intros Hd. rewrite _init_wsd_run. unfold init_plan, connect.
  destruct d as [|x d]; [done |].
  change (not_dict (Some (x :: d))) with false.
  change (default [] (Some (x :: d))) with (x :: d). cbv iota.
  destruct (ClientAuth W (x :: d)) as [e|a]; cbn [fst snd trace].
  - split_and!; [by intros ? [= <-] | done |].
    unfold opened. rewrite omap_app. apply app_nil_r.
  - split_and!; [done | by intros ? [= <-] |].
    unfold opened. rewrite omap_app. apply app_nil_r.
Qed.

(** X9: called with a handle and a non-empty date, the station walker
    neither reads credentials nor exchanges a token nor reads the clock:
    the state gains the record of the walk and nothing else, and with an
    empty station listing the call returns normally. *)
Theorem walker_with_handle_and_date {V} (W : World V) w d dp_save (st : State V) :
  d <> EmptyString ->
  snd (data_sampler_stations W (Some w) (Some d) dp_save st)
  = mkState (fs st) (trace st ++ [EvStationWalk (Some w) (Some d) dp_save]) (ticks st) /\
  (stations w = [] ->
   fst (data_sampler_stations W (Some w) (Some d) dp_save st) = inr tt).
Proof.
  intros Hd. rewrite data_sampler_stations_supplied by done.
  split; [done |]. by intros ->.
Qed.

(** X10: the date of the station walker.  When no date is supplied ([None]
    or the empty string) the clock is read once and the date is the day
    before the day of the clock, in the form of [strftime]; on the first
    day of the calendar this raises an [OverflowError]; a supplied
    non-empty date is used as it is and the clock is not read. *)
Theorem walker_default_date_is_yesterday {V} (W : World V) date (st : State V) :
  PyDatetime.valid_datetime (clock W (ticks st)) ->
  let today := PyDatetime.toordinal (clock W (ticks st)) in
  (not_str date = true -> (1 < today)%Z ->
   date_or_yesterday W date st
   = (inr (day_string (today - 1)), mkState (fs st) (trace st) (S (ticks st)))) /\
  (not_str date = true -> today = 1%Z ->
   exists e, fst (date_or_yesterday W date st) = inl e /\ exn_cls e = OverflowError) /\
  (forall s, date = Some s -> s <> EmptyString ->
   date_or_yesterday W date st = (inr s, st)).
Proof.
  intros Hv today. split_and!.
  - intros Hnot Hlate. unfold date_or_yesterday, yesterday, bind, datetime_now, lift, ret.
    rewrite Hnot.
    destruct (CalendarFacts.datetime_sub_days_inr (clock W (ticks st)) 1 Hv)
      as (d & Hd & Hs); [subst today; lia | lia |].
    by rewrite Hd, Hs.
  - intros Hnot Hfirst. unfold date_or_yesterday, yesterday, bind, datetime_now, lift.
    rewrite Hnot. cbn [fst snd].
    unfold PyDatetime.datetime_sub_days.
    rewrite CalendarFacts.mk_timedelta_small;
      [| by apply CalendarFacts.seconds_of_day_range
       | unfold PyDatetime.valid_datetime in Hv; lia].
    cbn [PyDatetime.days]. subst today. rewrite Hfirst. cbn. by eexists.
  - intros s -> Hs. unfold date_or_yesterday. cbn [not_str].
    by replace (String.eqb s EmptyString) with false
      by (symmetry; by apply String.eqb_neq).
Qed.

(** X11: the period walker obtains the session before it parses
    [date_start]: with an invalid date the [ValueError] of the parser is
    raised after the credentials file was opened, the token exchanged and
    the handle built; and when the session initializer raises, its
    exception is the outcome, whatever the date. *)
Theorem period_parses_date_after_login {V} (W : World V) date_start dp_save
    (st : State V) :
  (forall w st1 e,
     _init_wsd W None st = (inr w, st1) ->
     PyDatetime.strptime_ymd date_start = inl e ->
     data_sampler_stations_period W date_start dp_save st = (inl e, st1)
     /\ exists d a,
          trace st1 = (trace st ++ [EvOpen (os_path_join (THISDIR W) CONFIG_FILENAME);
                                    EvClientAuth d; EvStationsData a])%list) /\
  (forall e st1,
     _init_wsd W None st = (inl e, st1) ->
     data_sampler_stations_period W date_start dp_save st = (inl e, st1)).
Proof.
  split.
  - intros w st1 e Hinit Hparse. split.
    + unfold data_sampler_stations_period, bind. rewrite Hinit.
      unfold lift at 1. by rewrite Hparse.
    + rewrite _init_wsd_run in Hinit. unfold init_plan, connect in Hinit.
      cbn [not_dict] in Hinit.
      destruct (config_file W) as [e'|d]; [done |].
      destruct (ClientAuth W d) as [e'|a]; [done |].
      cbn [fst snd] in Hinit. injection Hinit as _ <-. by exists d, a.
  - intros e st1 Hinit. unfold data_sampler_stations_period, bind. by rewrite Hinit.
Qed.

(** X12: on an account with at least one station and a start date before
    today, the period walker ends in its first iteration: it prints the
    start date, invokes the station walker once for it, and raises the
    [TypeError] of that invocation; the later days are neither printed nor
    sampled. *)
Theorem period_on_stations_stops_at_first_day {V} (W : World V) date_start dp_save
    (st st1 : State V) w d0 today :
  _init_wsd W None st = (inr w, st1) ->
  PyDatetime.strptime_ymd date_start = inr d0 ->
  (forall k, PyDatetime.valid_datetime (clock W k)
             /\ PyDatetime.toordinal (clock W k) = today) ->
  (PyDatetime.toordinal d0 < today)%Z ->
  stations w <> [] ->
  data_sampler_stations_period W date_start dp_save st
  = (inl (arity_error W),
     mkState (fs st1)
             (trace st1 ++ iteration_events w (dp_save_or_STOREDIR W dp_save)
                             (PyDatetime.strftime_ymd d0))
             (S (S (ticks st1)))).
Proof.
  intros Hinit Hparse Hclock Hbefore Hst.
  destruct (CalendarFacts.strptime_ymd_inr _ _ Hparse) as (Hv0 & Hs0 & Hus0).
  pose proof (CalendarFacts.toordinal_range _ Hv0) as Ho0.
  destruct (Hclock (ticks st1)) as [Hv1 Ho1].
  destruct (Hclock (S (ticks st1))) as [Hv2 Ho2].
  unfold data_sampler_stations_period, bind. rewrite Hinit.
  unfold lift at 1. rewrite Hparse. unfold datetime_now at 1.
  rewrite CalendarFacts.datetime_sub_days_midnight, Ho1 by done.
  destruct (Z.to_nat (today - PyDatetime.toordinal d0)) as [|n] eqn:Hn; [lia |].
  destruct (CalendarFacts.datetime_sub_days_inr (clock W (S (ticks st1))) (Z.of_nat (S n)))
    as (d & Hd & Hs); [done | lia | lia |].
  rewrite period_loop_unfold. cbn [ticks fs trace]. rewrite Hd.
  rewrite data_sampler_stations_supplied by apply strftime_ymd_nonempty.
  assert (PyDatetime.strftime_ymd d = PyDatetime.strftime_ymd d0) as ->.
  { rewrite Hs, Ho2, <- (CalendarFacts.day_string_toordinal d0 Hv0). f_equal. lia. }
  destruct (stations w); [done |]. unfold iteration_events.
  cbn [fs trace ticks]. by rewrite <- app_assoc.
Qed.

(** X13: whatever the start date and the number of days, a period run that
    obtains its session opens the credentials file once and makes one
    token exchange and one handle construction, at the start; everything
    the run adds after that is a print or a station walk with that handle:
    the rest of the run makes no exchange, opens no file, constructs no
    handle, requests no measurement and writes no file. *)
Theorem period_authenticates_once {V} (W : World V) date_start dp_save
    (st st1 : State V) w :
  _init_wsd W None st = (inr w, st1) ->
  let r := data_sampler_stations_period W date_start dp_save st in
  fs (snd r) = fs st /\
  exists d a evs,
    config_file W = inr d /\ ClientAuth W d = inr a /\
    trace (snd r)
    = (trace st ++ [EvOpen (os_path_join (THISDIR W) CONFIG_FILENAME);
                    EvClientAuth d; EvStationsData a] ++ evs)%list /\
    Forall (print_or_walk w (dp_save_or_STOREDIR W dp_save)) evs /\
    exchanges evs = [] /\ opened evs = [] /\ constructions evs = [] /\
    requests evs = [] /\ written evs = [] /\
    opened (added st (snd r)) = [os_path_join (THISDIR W) CONFIG_FILENAME] /\
    exchanges (added st (snd r)) = [d] /\
    constructions (added st (snd r)) = [a].
Proof.
  intros Hinit r. subst r.
  assert (Hst1 : fs st1 = fs st /\ exists d a,
            config_file W = inr d /\ ClientAuth W d = inr a /\
            trace st1 = (trace st ++ [EvOpen (os_path_join (THISDIR W) CONFIG_FILENAME);
                                      EvClientAuth d; EvStationsData a])%list).
  { rewrite _init_wsd_run in Hinit. unfold init_plan, connect in Hinit.
    cbn [not_dict] in Hinit.
    destruct (config_file W) as [e'|d]; [done |].
    destruct (ClientAuth W d) as [e'|a] eqn:Ha; [done |].
    cbn [fst snd] in Hinit. injection Hinit as _ <-. split; [done |]. by exists d, a. }
  destruct Hst1 as (Hfs1 & d & a & Hcfg & Ha & Htr1).
  assert (Hr : data_sampler_stations_period W date_start dp_save st =
               match PyDatetime.strptime_ymd date_start with
               | inl e => (inl e, st1)
               | inr d0 =>
                   period_loop W w (dp_save_or_STOREDIR W dp_save)
                     (Z.to_nat (PyDatetime.days
                        (PyDatetime.datetime_sub (clock W (ticks st1)) d0)))
                     (mkState (fs st1) (trace st1) (S (ticks st1)))
               end).
  { unfold data_sampler_stations_period, bind. rewrite Hinit. unfold lift.
    by destruct (PyDatetime.strptime_ymd date_start). }
  rewrite Hr. clear Hr.
  assert (Hrest : exists evs,
            fs (snd (match PyDatetime.strptime_ymd date_start with
                     | inl e => (inl e, st1)
                     | inr d0 =>
                         period_loop W w (dp_save_or_STOREDIR W dp_save)
                           (Z.to_nat (PyDatetime.days
                              (PyDatetime.datetime_sub (clock W (ticks st1)) d0)))
                           (mkState (fs st1) (trace st1) (S (ticks st1)))
                     end)) = fs st /\
            trace (snd (match PyDatetime.strptime_ymd date_start with
                        | inl e => (inl e, st1)
                        | inr d0 =>
                            period_loop W w (dp_save_or_STOREDIR W dp_save)
                              (Z.to_nat (PyDatetime.days
                                 (PyDatetime.datetime_sub (clock W (ticks st1)) d0)))
                              (mkState (fs st1) (trace st1) (S (ticks st1)))
                        end))
            = (trace st ++ [EvOpen (os_path_join (THISDIR W) CONFIG_FILENAME);
                            EvClientAuth d; EvStationsData a] ++ evs)%list /\
            Forall (print_or_walk w (dp_save_or_STOREDIR W dp_save)) evs).
  { destruct (PyDatetime.strptime_ymd date_start) as [e|d0].
    - exists []. cbn [snd]. by rewrite app_nil_r.
    - set (n := Z.to_nat _). set (st2 := mkState _ _ _).
      destruct (period_loop_events W w (dp_save_or_STOREDIR W dp_save) n st2)
        as (Hfs & evs & Hev & Hall).
      exists evs. split_and!; [by rewrite Hfs | | done].
      rewrite Hev. subst st2. cbn [trace]. by rewrite Htr1, <- app_assoc. }
  destruct Hrest as (evs & Hfs & Htr & Hall).
  destruct (print_or_walk_quiet _ _ _ Hall) as (Hx & Ho & Hc & Hrq & Hwr).
  split; [done |]. exists d, a, evs.
  rewrite (added_app _ _ _ Htr).
  split_and!; try done.
  - unfold opened in *. rewrite omap_app, Ho. reflexivity.
  - unfold exchanges in *. rewrite omap_app, Hx. reflexivity.
  - unfold constructions in *. rewrite omap_app, Hc. reflexivity.
Qed.

(** X14: the number of iterations is fixed from the first clock reading,
    and each iteration reads the clock again: iteration [i] passes on the
    day of its own reading minus the [n - i] iterations left.  So when the
    clock has passed midnight between two iterations, the day passed on
    advances by two: one day of the period is left out. *)
Theorem period_days_follow_the_clock {V} (W : World V) date_start dp_save
    (st st1 : State V) w d0 :
  _init_wsd W None st = (inr w, st1) ->
  PyDatetime.strptime_ymd date_start = inr d0 ->
  (forall k, PyDatetime.valid_datetime (clock W k)) ->
  (forall k, ticks st1 <= k ->
     (PyDatetime.toordinal (clock W (ticks st1)) <= PyDatetime.toordinal (clock W k))%Z) ->
  let r := data_sampler_stations_period W date_start dp_save st in
  let dp := dp_save_or_STOREDIR W dp_save in
  let t := S (ticks st1) in
  let n := Z.to_nat (PyDatetime.toordinal (clock W (ticks st1)) - PyDatetime.toordinal d0) in
  let days := period_days W t n in
  (exists k, k <= n /\
     walks (trace (snd r)) =
       (walks (trace st)
          ++ take k (map (fun o => (Some w, Some (day_string o), Some dp)) days))%list /\
     (fst r = inr tt -> k = n) /\
     (stations w = [] -> fst r = inr tt)) /\
  (forall i, i < n ->
     days !! i
     = Some (PyDatetime.toordinal (clock W (t + i)) - Z.of_nat (n - i))%Z) /\
  (forall i a b, days !! i = Some a -> days !! S i = Some b ->
     (b - a = 1 + (PyDatetime.toordinal (clock W (t + S i))
                   - PyDatetime.toordinal (clock W (t + i))))%Z).
Proof.
  intros Hinit Hparse Hvalid Hmono r dp t n days.
  destruct (CalendarFacts.strptime_ymd_inr _ _ Hparse) as (Hv0 & Hs0 & Hus0).
  pose proof (CalendarFacts.toordinal_range _ Hv0) as Ho0.
  assert (Hr : r = period_loop W w dp n (mkState (fs st1) (trace st1) t)).
  { subst r n. unfold data_sampler_stations_period, bind.
    rewrite Hinit. unfold lift at 1. rewrite Hparse. unfold datetime_now.
    by rewrite CalendarFacts.datetime_sub_days_midnight. }
  assert (Hw1 : walks (trace st1) = walks (trace st)).
  { rewrite _init_wsd_run in Hinit. injection Hinit as _ <-. simpl.
    rewrite walks_app.
    destruct (init_plan_quiet W None) as (_ & _ & ->). by rewrite app_nil_r. }
  split_and!.
  - destruct (period_loop_days W w dp n (mkState (fs st1) (trace st1) t))
      as (k & Hk & Hwk & Hall & Hok).
    { intros j Hj. cbn [ticks] in Hj. split; [done |].
      assert (ticks st1 <= j) as Hj' by (subst t; lia).
      pose proof (Hmono j Hj').
      pose proof (CalendarFacts.toordinal_range _ (Hvalid j)). subst n. lia. }
    rewrite <- Hr in Hwk, Hall, Hok. cbn [trace ticks] in Hwk.
    rewrite Hw1 in Hwk. by exists k.
  - intros i Hi. by apply period_days_lookup.
  - intros i a b Ha Hb.
    assert (S i < n) as Hi.
    { apply lookup_lt_Some in Hb. subst days. by rewrite period_days_length in Hb. }
    subst days. rewrite period_days_lookup in Ha, Hb by lia.
    injection Ha as <-. injection Hb as <-.
    replace (n - i) with (S (n - S i)) by lia.
    rewrite Nat2Z.inj_succ. subst t. cbn [Nat.add]. lia.
Qed.

(** X15: the days of a period run.  When the session handle [w] is
    obtained, [date_start] parses to the day [d0] and the clock stays on
    the day [today] during the run, the period walker invokes the station
    walker for the days [d0], [d0 + 1], ..., [today - 1] in this order,
    each time with the handle [w] and the resolved directory, and stops at
    the first invocation that raises.  The first day is passed as
    [strftime] prints the parsed date, which is [date_start] itself when
    that is written with four, two and two digits.  The invocations are the
    first [k] of these [n = today - d0] (none when [date_start] is today or
    later: the run then returns at once), with [k = n] when the run returns
    normally, which it does when no invocation raises.  No file is
    written. *)
Theorem period_walks_in_order {V} (W : World V) date_start dp_save
    (st st1 : State V) w d0 today :
  _init_wsd W None st = (inr w, st1) ->
  PyDatetime.strptime_ymd date_start = inr d0 ->
  (forall k, PyDatetime.valid_datetime (clock W k)
             /\ PyDatetime.toordinal (clock W k) = today) ->
  let r := data_sampler_stations_period W date_start dp_save st in
  let dp := dp_save_or_STOREDIR W dp_save in
  let n := Z.to_nat (today - PyDatetime.toordinal d0) in
  let expected := period_walks w dp (PyDatetime.toordinal d0) n in
  length expected = n /\
  (n <> 0 -> head expected = Some (Some w, Some (PyDatetime.strftime_ymd d0), Some dp)) /\
  (n <> 0 -> canonical_ymd date_start ->
   head expected = Some (Some w, Some date_start, Some dp)) /\
  (forall x, x ∈ expected ->
     exists o, (PyDatetime.toordinal d0 <= o < today)%Z
               /\ x = (Some w, Some (day_string o), Some dp)) /\
  (exists k, k <= n /\
     walks (trace (snd r)) = (walks (trace st) ++ take k expected)%list /\
     (fst r = inr tt -> k = n)) /\
  ((forall sday st',
      fst (data_sampler_stations W (Some w) (Some sday) (Some dp) st') = inr tt) ->
   fst r = inr tt /\ walks (trace (snd r)) = (walks (trace st) ++ expected)%list) /\
  ((today <= PyDatetime.toordinal d0)%Z ->
   fst r = inr tt /\ walks (trace (snd r)) = walks (trace st)) /\
  fs (snd r) = fs st.
Proof.
  intros Hinit Hparse Hclock r dp n expected.
  destruct (CalendarFacts.strptime_ymd_inr _ _ Hparse) as (Hv0 & Hs0 & Hus0).
  pose proof (CalendarFacts.toordinal_range _ Hv0) as Ho0.
  destruct (Hclock (ticks st1)) as [Hv1 Ho1].
  assert (Hn : PyDatetime.days (PyDatetime.datetime_sub (clock W (ticks st1)) d0)
               = (today - PyDatetime.toordinal d0)%Z).
  { by rewrite CalendarFacts.datetime_sub_days_midnight, Ho1. }
  assert (Hr : r = period_loop W w dp n
                     (mkState (fs st1) (trace st1) (S (ticks st1)))).
  { subst r. unfold data_sampler_stations_period, bind.
    rewrite Hinit. unfold lift at 1. rewrite Hparse.
    unfold datetime_now. by rewrite Hn. }
  assert (Hst1 : fs st1 = fs st /\ walks (trace st1) = walks (trace st)).
  { rewrite _init_wsd_run in Hinit. injection Hinit as _ <-. simpl.
    split; [done |]. rewrite walks_app.
    destruct (init_plan_quiet W None) as (_ & _ & ->). by rewrite app_nil_r. }
  destruct Hst1 as [Hfs1 Hw1].
  pose proof (CalendarFacts.toordinal_range _ Hv1) as Ht. rewrite Ho1 in Ht.
  assert (Hfirst : n = 0 \/ (today - Z.of_nat n = PyDatetime.toordinal d0)%Z)
    by (subst n; lia).
  destruct (period_loop_walks W w dp today Hclock n
              (mkState (fs st1) (trace st1) (S (ticks st1))))
    as (Hfs & (k & Hk & Hwk & Hall) & Hok); [subst n; lia |].
  rewrite <- Hr in Hfs, Hwk, Hall, Hok. cbn [fs trace] in Hfs, Hwk.
  assert (Hexp : period_walks w dp (today - Z.of_nat n) n = expected).
  { destruct Hfirst as [Hz| ->]; [|done]. subst expected. by rewrite Hz. }
  rewrite Hexp, Hw1 in Hwk.
  split_and!.
  - apply period_walks_length.
  - intros Hpos. subst expected. destruct n as [|n']; [done |]. simpl.
    by rewrite CalendarFacts.day_string_toordinal.
  - intros Hpos Hcan. subst expected. destruct n as [|n']; [done |]. simpl.
    rewrite CalendarFacts.day_string_toordinal by done.
    by rewrite (CalendarFacts.strftime_strptime _ _ Hcan Hparse).
  - intros x Hx. apply period_walks_elem in Hx as (o & Hrange & ->).
    exists o. split; [lia | done].
  - by exists k.
  - intros Hwalker. specialize (Hok Hwalker). split; [done |].
    rewrite Hwk, (Hall Hok). rewrite firstn_all2; [done |].
    subst expected. by rewrite period_walks_length.
  - intros Hlate. assert (n = 0) as Hz by (subst n; lia).
    split; [by rewrite Hr, Hz |].
    rewrite Hwk. subst expected. rewrite Hz. simpl.
    by rewrite take_nil, app_nil_r.
  - congruence.
Qed.

Module ExtraInstances.
Import Fixture Fixture2.

(** X1 on the station with two metrics. *)
Lemma sampler_one_request_and_file_per_metric_witness :
  fst (_data_sampler_device (world wsd1) wsd1 "S2" S2 "2024-03-01" "/out" st0) = inr tt /\
  exists evs,
    trace (snd (_data_sampler_device (world wsd1) wsd1 "S2" S2 "2024-03-01" "/out" st0))
    = ([] ++ evs)%list /\
    written evs = ["/out/2024-03-01_Indoor_Temperature.csv";
                   "/out/2024-03-01_Indoor_Humidity.csv"].
Proof.
  destruct (sampler_one_request_and_file_per_metric (world wsd1) wsd1 "S2" S2
              "2024-03-01" "/out" st0 1709251201 1709337599 eq_refl eq_refl)
    as (Hr & evs & Htr & _ & Hwr & _).
  - intros m Hm. apply elem_of_cons in Hm as [->|Hm].
    + eexists. split; [reflexivity |]. repeat constructor; discriminate.
    + apply list_elem_of_singleton in Hm as ->.
      eexists. split; [reflexivity |]. constructor.
  - split; [exact Hr |]. exists evs. split; [exact Htr | exact Hwr].
Defined.

(** X2 on the temperature of the station "S1". *)
Lemma sampler_rows_follow_response_witness :
  exists rows,
    fs (snd (_data_sampler_device (world wsd1) wsd1 "S1" S1 "2024-03-01" "/out" st0))
      !! "/out/2024-03-01_Outdoor_Temperature.csv"
    = Some (mkCsv ["DateTime"; "Value"] rows) /\
    length rows = 2.
Proof.
  destruct (sampler_rows_follow_response (world wsd1) wsd1 "S1" S1 "2024-03-01" "/out"
              st0 1709251201 1709337599 [] "Temperature" []
              [(1709251500, [215; 7]); (1709251800, [216; 8])]%Z
              eq_refl eq_refl eq_refl)
    as (rows & Hf & Hl & _).
  - intros m Hm. by apply elem_of_nil in Hm.
  - reflexivity.
  - repeat constructor; discriminate.
  - exists rows. split; [exact Hf | exact Hl].
Defined.

(** X3 when the service is unreachable for the second metric. *)
Lemma sampler_request_failure_no_rollback_witness :
  fst (_data_sampler_device (world wsd_down) wsd_down "S2" S2 "2024-03-01" "/out" st0)
  = inl (Exn (OtherError "ConnectionError") "timed out") /\
  is_Some (fs (snd (_data_sampler_device (world wsd_down) wsd_down "S2" S2
                      "2024-03-01" "/out" st0))
             !! "/out/2024-03-01_Indoor_Temperature.csv").
Proof.
  destruct (sampler_request_failure_no_rollback (world wsd_down) wsd_down "S2" S2
              "2024-03-01" "/out" st0 1709251201 1709337599
              ["Temperature"] "Humidity" []
              (Exn (OtherError "ConnectionError") "timed out")
              eq_refl eq_refl eq_refl)
    as (Hr & _ & Hfiles & _).
  - intros m Hm. apply list_elem_of_singleton in Hm as ->.
    eexists. split; [reflexivity |]. repeat constructor; discriminate.
  - reflexivity.
  - split; [exact Hr |]. apply (Hfiles "Temperature"), list_elem_of_here.
Defined.

(** X4 on a date that is no date. *)
Lemma sampler_bad_date_no_effect_witness :
  exists e,
    _data_sampler_device (world wsd1) wsd1 "S1" S1 "yesterday" "/out" st0 = (inl e, st0).
Proof.
  eexists.
  apply (sampler_bad_date_no_effect (world wsd1) wsd1 "S1" S1 "yesterday" "/out" st0).
  left. reflexivity.
Defined.

(** X5 on the station "S1": another file stays as it is. *)
Lemma sampler_touches_only_its_files_witness :
  fs (snd (_data_sampler_device (world wsd1) wsd1 "S1" S1 "2024-03-01" "/out" st0))
    !! "/out/2024-02-29_Outdoor_Temperature.csv"
  = fs st0 !! "/out/2024-02-29_Outdoor_Temperature.csv" /\
  exists rest, csv_path "/out" "2024-03-01" "Outdoor" "Temperature" = "/out" +:+ rest.
Proof.
  destruct (sampler_touches_only_its_files (world wsd1) wsd1 "S1" S1 "2024-03-01" "/out"
              st0) as (_ & Hframe & Hunder).
  split.
  - apply Hframe. intros m Hm. apply list_elem_of_singleton in Hm as ->. discriminate.
  - apply (Hunder eq_refl "Temperature").
Defined.

(** X6 on the two modules named "Rain". *)
Lemma same_name_devices_share_files_witness :
  fs (snd (bind (_data_sampler_device (world wsd_twins) wsd_twins "S1" M1 "2024-03-01" "/out")
                (fun _ => _data_sampler_device (world wsd_twins) wsd_twins "S1" M2
                            "2024-03-01" "/out") st0))
    !! "/out/2024-03-01_Rain_Rain.csv"
  = Some (mkCsv ["DateTime"; "Value"] [[CText "2024-03-01_00:05:00"; CValue 5%Z]]).
Proof.
  apply (same_name_devices_share_files (world wsd_twins) wsd_twins "S1" M1 "S1" M2
           "2024-03-01" "/out" st0 1709251201 1709337599 [] "Rain" []
           [(1709251500, [5])]%Z eq_refl eq_refl eq_refl eq_refl eq_refl).
  - intros m Hm. by apply elem_of_nil in Hm.
  - reflexivity.
  - repeat constructor; discriminate.
Defined.

(** X7 on a credentials file that is not valid JSON. *)
Lemma init_other_read_errors_propagate_witness :
  fst (_init_wsd world_bad_json None st0)
  = inl (Exn (OtherError "JSONDecodeError") "Expecting value").
Proof.
  rewrite (init_other_read_errors_propagate world_bad_json None st0
             (Exn (OtherError "JSONDecodeError") "Expecting value") eq_refl eq_refl).
  - reflexivity.
  - discriminate.
Defined.

(** X8 on a machine without credentials file. *)
Lemma init_supplied_credentials_skip_file_witness :
  _init_wsd world_no_config (Some credentials) st0
  = (inr wsd1, mkState ∅ [EvClientAuth credentials; EvStationsData "token"] 0).
Proof.
  destruct (init_supplied_credentials_skip_file world_no_config credentials st0)
    as (_ & Hok & _).
  - discriminate.
  - apply (Hok "token"). reflexivity.
Defined.

(** X9 on an account without stations. *)
Lemma walker_with_handle_and_date_witness :
  data_sampler_stations (world wsd0) (Some wsd0) (Some "2024-03-01") None st0
  = (inr tt, mkState ∅ [EvStationWalk (Some wsd0) (Some "2024-03-01") None] 0).
Proof.
  destruct (walker_with_handle_and_date (world wsd0) wsd0 "2024-03-01" None st0)
    as [Hst Hr].
  - discriminate.
  - specialize (Hr eq_refl).
    destruct (data_sampler_stations (world wsd0) (Some wsd0) (Some "2024-03-01") None st0)
      as [r st']. cbn [fst snd] in Hst, Hr. by rewrite Hst, Hr.
Defined.

(** X10 on 4 March 2024. *)
Lemma walker_default_date_is_yesterday_witness :
  fst (date_or_yesterday (world wsd1) None st0) = inr "2024-03-03".
Proof.
  assert (Hv : PyDatetime.valid_datetime (clock (world wsd1) (ticks st0)))
    by (repeat split; by vm_compute).
  destruct (walker_default_date_is_yesterday (world wsd1) None st0 Hv) as (Hy & _ & _).
  rewrite Hy; [reflexivity | reflexivity | by vm_compute].
Defined.

(** X11 on a start date that is no date. *)
Lemma period_parses_date_after_login_witness :
  exists e st1,
    data_sampler_stations_period (world wsd1) "yesterday" None st0 = (inl e, st1)
    /\ exn_cls e = ValueError
    /\ exchanges (trace st1) = [credentials].
Proof.
  destruct (period_parses_date_after_login (world wsd1) "yesterday" None st0)
    as [Hbad _].
  destruct (Hbad wsd1 _ _ eq_refl eq_refl) as [Hr _].
  eexists _, _. split; [exact Hr |]. split; reflexivity.
Defined.

(** X12 on the account with the station "S1". *)
Lemma period_on_stations_stops_at_first_day_witness :
  fst (data_sampler_stations_period (world wsd1) "2024-03-01" None st0)
  = inl (arity_error (world wsd1)) /\
  walks (trace (snd (data_sampler_stations_period (world wsd1) "2024-03-01" None st0)))
  = [(Some wsd1, Some "2024-03-01", Some "/app/data")].
Proof.
  assert (Hclock : forall k, PyDatetime.valid_datetime (clock (world wsd1) k)
                             /\ PyDatetime.toordinal (clock (world wsd1) k) = 738949%Z).
  { intros k. split; [|reflexivity]. repeat split; by vm_compute. }
  rewrite (period_on_stations_stops_at_first_day (world wsd1) "2024-03-01" None st0 _
             wsd1 _ 738949%Z eq_refl eq_refl Hclock).
  - split; reflexivity.
  - by vm_compute.
  - discriminate.
Defined.

(** X13 on three days of an account without stations. *)
Lemma period_authenticates_once_witness :
  let tr := trace (snd (data_sampler_stations_period (world wsd0) "2024-03-01" None st0)) in
  opened tr = ["/app/authorization.json"] /\
  exchanges tr = [credentials] /\
  constructions tr = ["token"].
Proof.
  destruct (period_authenticates_once (world wsd0) "2024-03-01" None st0 _ wsd0 eq_refl)
    as (_ & d & a & evs & Hcfg & Ha & _ & _ & _ & _ & _ & _ & _ & Ho & Hx & Hc).
  injection Hcfg as <-. injection Ha as <-.
  split_and!; [exact Ho | exact Hx | exact Hc].
Defined.

(** X14 on a run that passes midnight: 2 March is left out. *)
Lemma period_days_follow_the_clock_witness :
  walks (trace (snd (data_sampler_stations_period world_midnight "2024-03-01" None st0)))
  = [(Some wsd0, Some "2024-03-01", Some "/app/data");
     (Some wsd0, Some "2024-03-03", Some "/app/data");
     (Some wsd0, Some "2024-03-04", Some "/app/data")].
Proof.
  assert (Hv : forall k, PyDatetime.valid_datetime (clock world_midnight k)).
  { intros k. cbn [clock world_midnight]. destruct (k <? 2)%nat; repeat split; by vm_compute. }
  assert (Hm : forall k, ticks st0 <= k ->
            (PyDatetime.toordinal (clock world_midnight (ticks st0))
             <= PyDatetime.toordinal (clock world_midnight k))%Z).
  { intros k _. cbn [clock world_midnight ticks st0].
    destruct (k <? 2)%nat; by vm_compute. }
  destruct (period_days_follow_the_clock world_midnight "2024-03-01" None st0 _ wsd0 _
              eq_refl eq_refl Hv Hm) as ((k & _ & Hw & Hall & Hok) & _).
  rewrite Hw, (Hall (Hok eq_refl)). reflexivity.
Defined.

(** X15 on an account without stations: three days, three invocations. *)
Lemma period_walks_in_order_witness :
  fst (data_sampler_stations_period (world wsd0) "2024-03-01" None st0) = inr tt /\
  walks (trace (snd (data_sampler_stations_period (world wsd0) "2024-03-01" None st0)))
  = [(Some wsd0, Some "2024-03-01", Some "/app/data");
     (Some wsd0, Some "2024-03-02", Some "/app/data");
     (Some wsd0, Some "2024-03-03", Some "/app/data")].
Proof.
  assert (Hclock : forall k, PyDatetime.valid_datetime (clock (world wsd0) k)
                             /\ PyDatetime.toordinal (clock (world wsd0) k) = 738949%Z).
  { intros k. split; [|reflexivity]. repeat split; by vm_compute. }
  destruct (period_walks_in_order (world wsd0) "2024-03-01" None st0 _ wsd0 _ 738949%Z
              eq_refl eq_refl Hclock) as (_ & _ & _ & _ & _ & Hall & _).
  apply Hall. intros sday st'. by destruct sday.
Defined.

End ExtraInstances.
